(** * aibro: the agent tools (file, shell and markdown reading) in Rocq

    A shallow embedding of the tool functions of
      src/agents/code_agent/tools/file_tools.py
      src/agents/code_agent/tools/bash_tools.py
      src/agents/paper_agent/tools/paper_tools.py

    Python strings are [string]s.  Characters are classified as Python
    classifies the ASCII range (whitespace, upper case, line boundaries);
    characters outside it are inert.  Python integers are [Z].
    Every standard-library or operating-system call a tool makes is a field
    of the record [OS]: the tools are written once, over any implementation
    of it, in a state-and-exception monad.  [Ref] is a reference
    implementation of [OS] (a path-indexed file store with text-mode newline
    translation, an environment, and scripted child processes) on which the
    tools can be run. *)

From stdpp Require Import base option list strings gmap pretty sorting.
From Stdlib Require Import ZArith Ascii.

Local Open Scope Z_scope.

(** ** Python's string and list primitives *)

Module Py.

Definition code (c : ascii) : Z := Z.of_N (N_of_ascii c).

Definition LF : ascii := ascii_of_nat 10.
Definition CR : ascii := ascii_of_nat 13.

(** [str.isspace] on one character, also the class [\s] of [re]:
    TAB LF VT FF CR, FS GS RS US, and the space. *)
Definition isspace (c : ascii) : bool :=
  let n := code c in
  ((9 <=? n) && (n <=? 13)) || ((28 <=? n) && (n <=? 32)).

(** The line boundaries of [str.splitlines]: LF VT FF CR FS GS RS. *)
Definition is_linebreak (c : ascii) : bool :=
  let n := code c in
  ((10 <=? n) && (n <=? 13)) || ((28 <=? n) && (n <=? 30)).

Definition lower_char (c : ascii) : ascii :=
  let n := code c in
  if (65 <=? n) && (n <=? 90) then ascii_of_N (Z.to_N (n + 32)) else c.

(** [s.lower()] *)
Fixpoint lower (s : string) : string :=
  match s with
  | EmptyString => EmptyString
  | String c s' => String (lower_char c) (lower s')
  end.

(** [len(s)] *)
Definition len (s : string) : Z := Z.of_nat (String.length s).

(** [s.lstrip()], [s.rstrip()], [s.strip()] *)
Fixpoint lstrip (s : string) : string :=
  match s with
  | String c s' => if isspace c then lstrip s' else s
  | EmptyString => EmptyString
  end.

Fixpoint rstrip (s : string) : string :=
  match s with
  | EmptyString => EmptyString
  | String c s' =>
      match rstrip s' with
      | EmptyString => if isspace c then EmptyString else String c EmptyString
      | r => String c r
      end
  end.

Definition strip (s : string) : string := rstrip (lstrip s).

(** [prefix.startswith]-style test and [needle in hay]. *)
Fixpoint startswith (hay needle : string) {struct needle} : bool :=
  match needle with
  | EmptyString => true
  | String a needle' =>
      match hay with
      | String b hay' => if ascii_dec a b then startswith hay' needle' else false
      | EmptyString => false
      end
  end.

Fixpoint contains (hay needle : string) : bool :=
  startswith hay needle ||
  match hay with
  | EmptyString => false
  | String _ h' => contains h' needle
  end.

(** [s.endswith(suffix)] *)
Definition endswith (s suffix : string) : bool :=
  startswith (String.rev s) (String.rev suffix).

(** [sep.join(parts)] *)
Fixpoint join (sep : string) (parts : list string) : string :=
  match parts with
  | [] => EmptyString
  | [p] => p
  | p :: ps => p +:+ sep +:+ join sep ps
  end.

(** [s * n] *)
Definition repeat_str (s : string) (n : Z) : string :=
  Nat.iter (Z.to_nat n) (String.append s) EmptyString.

(** [s.splitlines()]: the text is cut at every line boundary, CR LF counts
    as one, the boundaries are dropped, and a final boundary opens no
    further line.  [after_cr] is set when the previous character was a CR. *)
Fixpoint splitlines_from (after_cr : bool) (s : string) : list string :=
  match s with
  | EmptyString => []
  | String c s' =>
      if after_cr && bool_decide (c = LF) then splitlines_from false s'
      else if is_linebreak c then
        EmptyString :: splitlines_from (bool_decide (c = CR)) s'
      else
        match splitlines_from false s' with
        | [] => [String c EmptyString]
        | l :: ls => String c l :: ls
        end
  end.

Definition splitlines (s : string) : list string := splitlines_from false s.

(** [f.readlines()] on the text of a file opened in text mode: cut after
    every LF, the LF kept. *)
Fixpoint readlines (s : string) : list string :=
  match s with
  | EmptyString => []
  | String c s' =>
      if bool_decide (c = LF) then String c EmptyString :: readlines s'
      else
        match readlines s' with
        | [] => [String c EmptyString]
        | l :: ls => String c l :: ls
        end
  end.

(** [l.index(x)]: position of the first element equal to [x], [None]
    where Python raises ValueError. *)
Fixpoint index (l : list string) (x : string) : option nat :=
  match l with
  | [] => None
  | y :: l' => if decide (y = x) then Some O else S <$> index l' x
  end.

(** A slice bound as [l[i:j]] normalises it: a negative bound counts from
    the end, and the result is clipped to [0, len]. *)
Definition slice_bound (n i : Z) : Z :=
  if i <? 0 then Z.max 0 (n + i) else Z.min n i.

(** [l[i:j]] *)
Definition slice {A} (l : list A) (i j : Z) : list A :=
  let n := Z.of_nat (length l) in
  let a := slice_bound n i in
  let b := slice_bound n j in
  take (Z.to_nat (b - a)) (drop (Z.to_nat a) l).

(** [str(n)] for an integer. *)
Definition str (n : Z) : string := pretty n.

(** [f"{n:4d}"]: decimal, right-aligned in a field of four. *)
Definition fmt_4d (n : Z) : string :=
  let s := str n in
  repeat_str " " (4 - len s) +:+ s.

(** [range(a, b)] *)
Definition range (a b : Z) : list Z :=
  (λ k : nat, a + Z.of_nat k) <$> seq 0 (Z.to_nat (b - a)).

(** [enumerate(l, start)] *)
Fixpoint enumerate {A} (start : Z) (l : list A) : list (Z * A) :=
  match l with
  | [] => []
  | x :: l' => (start, x) :: enumerate (start + 1) l'
  end.

(** A string of one LF, and the quote of [f"'{x}'"]. *)
Definition NL : string := String LF EmptyString.
Definition quoted (s : string) : string := "'" +:+ s +:+ "'".

(** [s.rfind("/")]-based helpers of posixpath. *)
Definition SLASH : ascii := ascii_of_nat 47.

Fixpoint all_slashes (s : string) : bool :=
  match s with
  | EmptyString => true
  | String c s' => bool_decide (c = SLASH) && all_slashes s'
  end.

Fixpoint rstrip_slashes (s : string) : string :=
  match s with
  | EmptyString => EmptyString
  | String c s' =>
      match rstrip_slashes s' with
      | EmptyString => if bool_decide (c = SLASH) then EmptyString else String c EmptyString
      | r => String c r
      end
  end.

(** [head = p[:p.rfind('/') + 1]]: the part of [p] up to and including its
    last slash, empty when it has none. *)
Fixpoint upto_last_slash (p : string) : string :=
  match p with
  | EmptyString => EmptyString
  | String c p' =>
      match upto_last_slash p' with
      | EmptyString => if bool_decide (c = SLASH) then String c EmptyString else EmptyString
      | r => String c r
      end
  end.

(** [os.path.dirname] (posixpath): the head up to the last slash, its
    trailing slashes removed unless it consists of slashes only. *)
Definition dirname (p : string) : string :=
  let head := upto_last_slash p in
  if all_slashes head then head else rstrip_slashes head.

(** [os.path.join(a, b)] (posixpath, two components). *)
Definition path_join (a b : string) : string :=
  if startswith b "/" then b
  else if bool_decide (a = EmptyString) || endswith a "/" then a +:+ b
  else a +:+ "/" +:+ b.

End Py.


(** ** Exceptions and the tool monad *)

(** The classes of exception the handlers of the tools tell apart.
    [TimeoutExpired] is subprocess.TimeoutExpired; [OtherException] is any
    other class under [Exception] (OSError and its subclasses, ValueError,
    IndexError, ZeroDivisionError, UnicodeDecodeError, ...); [BaseOnly] is a
    class under [BaseException] but not under [Exception]
    (KeyboardInterrupt, SystemExit). *)
Inductive exc_class := BaseOnly | TimeoutExpired | OtherException.

(** An exception: its class and [str(e)]. *)
Record exn := Exn { exn_class : exc_class; exn_str : string }.

(** [isinstance(e, Exception)] and [isinstance(e, subprocess.TimeoutExpired)] *)
Definition is_Exception (e : exn) : bool :=
  match exn_class e with BaseOnly => false | _ => true end.

Definition is_TimeoutExpired (e : exn) : bool :=
  match exn_class e with TimeoutExpired => true | _ => false end.

Inductive outcome (A : Type) := Ret (a : A) | Raise (e : exn).
Arguments Ret {A} a.
Arguments Raise {A} e.

(** A computation over the state [W] of the machine that returns a value or
    raises. *)
Definition M (W A : Type) : Type := W → outcome A * W.

Definition ret {W A} (a : A) : M W A := λ w, (Ret a, w).
Definition raise {W A} (e : exn) : M W A := λ w, (Raise e, w).
Definition bind {W A B} (m : M W A) (k : A → M W B) : M W B :=
  λ w, match m w with
       | (Ret a, w') => k a w'
       | (Raise e, w') => (Raise e, w')
       end.
(** A state observation that cannot raise ([os.path.exists], [os.environ.get]). *)
Definition observe {W A} (f : W → A) : M W A := λ w, (Ret (f w), w).
(** A pure computation that may raise. *)
Definition lift {W A} (o : outcome A) : M W A := λ w, (o, w).
(** A state change that cannot raise. *)
Definition modify {W} (f : W → W) : M W unit := λ w, (Ret tt, f w).

Declare Scope tool_scope.
Delimit Scope tool_scope with tool.
Notation "x <- m ;; k" := (bind m (λ x, k))
  (at level 100, m at next level, right associativity) : tool_scope.
Notation "m ;;; k" := (bind m (λ _, k))
  (at level 100, right associativity) : tool_scope.

(** A handler clause [except C as e: h]: the class test and the handler. *)
Record handler (W A : Type) := Except { catches : exn → bool; handle : exn → M W A }.
Arguments Except {W A} catches handle.
Arguments catches {W A} h e.
Arguments handle {W A} h e.

(** The first clause, in order, whose class test accepts [e]. *)
Fixpoint find_handler {W A} (hs : list (handler W A)) (e : exn) : option (handler W A) :=
  match hs with
  | [] => None
  | h :: hs' => if catches h e then Some h else find_handler hs' e
  end.

(** [try: body except ...]: an exception of the body goes to the first
    clause that catches it, and propagates when none does; an exception
    raised by a handler propagates. *)
Definition try_except {W A} (body : M W A) (hs : list (handler W A)) : M W A :=
  λ w, match body w with
       | (Ret a, w') => (Ret a, w')
       | (Raise e, w') =>
           match find_handler hs e with
           | Some h => handle h e w'
           | None => (Raise e, w')
           end
       end.



(** [for x in l: body], threading a loop variable [acc]. *)
Fixpoint for_each {W A B} (l : list A) (acc : B) (body : B → A → M W B) : M W B :=
  match l with
  | [] => ret acc
  | x :: l' => bind (body acc x) (λ acc', for_each l' acc' body)
  end.

(** ** The operating system and library calls of the tools *)

(** [os.stat(p)]: the size, and the three times as [str] prints them. *)
Record stat_result := Stat {
  st_size : Z; st_ctime : string; st_mtime : string; st_atime : string }.

(** What [communicate] leaves behind: the captured streams and the return
    code of the process. *)
Record completed := Completed { stdout : string; stderr : string; returncode : Z }.

Record OS (W : Type) := {
  (** a handle on a child process *)
  proc : Type;
  (** os.path.exists, os.path.isdir, os.path.isfile *)
  path_exists : string → W → bool;
  path_isdir : string → W → bool;
  path_isfile : string → W → bool;
  (** os.path.getsize *)
  path_getsize : string → M W Z;
  (** [with open(p, 'r', encoding='utf-8') as f: f.read()] *)
  read_text : string → M W string;
  (** [with open(p, 'w', encoding='utf-8') as f: f.write(content)] *)
  write_text : string → string → M W unit;
  (** os.makedirs(d, exist_ok=True) *)
  makedirs : string → M W unit;
  (** os.listdir *)
  listdir : string → M W (list string);
  (** os.remove, shutil.rmtree, shutil.copytree, shutil.copy2, shutil.move *)
  remove : string → M W unit;
  rmtree : string → M W unit;
  copytree : string → string → M W unit;
  copy2 : string → string → M W unit;
  move : string → string → M W unit;
  (** os.stat *)
  stat : string → M W stat_result;
  (** str(Path(p).suffix), str(Path(p).parent) *)
  path_suffix : string → string;
  path_parent : string → string;
  (** list(Path(d).rglob(pattern)), each match as [str] prints it *)
  rglob : string → string → M W (list string);
  (** os.getcwd, os.chdir *)
  getcwd : M W string;
  chdir : string → M W unit;
  (** subprocess.Popen(command, shell=True, ..., cwd=cwd, text=True) *)
  popen : string → option string → M W proc;
  (** process.communicate(input=input, timeout=timeout) *)
  communicate : proc → option string → option Z → M W completed;
  (** process.kill(), process.wait().  [kill] polls the child and, when it
      has not ended, sends SIGKILL with os.kill: CPython swallows
      ProcessLookupError only, so a PermissionError (a child the caller may
      not signal) leaves [kill] as an exception; [wait] can be interrupted *)
  kill : proc → M W unit;
  wait : proc → M W unit;
  (** shlex.split *)
  shlex_split : string → outcome (list string);
  (** os.environ.get(name), os.environ[name] = value, sorted(os.environ.keys()) *)
  environ_get : string → W → option string;
  environ_set : string → string → M W unit;
  environ_sorted_keys : W → list string;
  (** Popen raises OSError or ValueError when it cannot start the child; a
      TimeoutExpired comes from [communicate] and [wait] only *)
  popen_never_times_out : ∀ command cwd w e w',
    popen command cwd w = (Raise e, w') → is_TimeoutExpired e = false;
}.
Arguments proc {W} o.
Arguments path_exists {W} o _ _.
Arguments path_isdir {W} o _ _.
Arguments path_isfile {W} o _ _.
Arguments path_getsize {W} o _ _.
Arguments read_text {W} o _ _.
Arguments write_text {W} o _ _ _.
Arguments makedirs {W} o _ _.
Arguments listdir {W} o _ _.
Arguments remove {W} o _ _.
Arguments rmtree {W} o _ _.
Arguments copytree {W} o _ _ _.
Arguments copy2 {W} o _ _ _.
Arguments move {W} o _ _ _.
Arguments stat {W} o _ _.
Arguments path_suffix {W} o _.
Arguments path_parent {W} o _.
Arguments rglob {W} o _ _ _.
Arguments getcwd {W} o _.
Arguments chdir {W} o _ _.
Arguments popen {W} o _ _ _.
Arguments communicate {W} o _ _ _ _.
Arguments kill {W} o _ _.
Arguments wait {W} o _ _.
Arguments shlex_split {W} o _.
Arguments environ_get {W} o _ _.
Arguments environ_set {W} o _ _ _.
Arguments environ_sorted_keys {W} o _.
Arguments popen_never_times_out {W} o _ _ _ _ _ _.

(** ** The tools

    The [runtime] argument every tool takes is never used and is left out.
    For each tool [t], [t_try] is the suite of its [try] and [t] the whole
    function with its handlers. *)

Local Open Scope tool_scope.

(** The clause [except Exception as e: return f"<prefix>: {str(e)}"]. *)
Definition except_Exception {W} (prefix : string) : handler W string :=
  Except is_Exception (λ e, ret (prefix +:+ ": " +:+ exn_str e)).

(** Truth value of a string and of a list. *)
Definition truthy (s : string) : bool := negb (bool_decide (s = EmptyString)).
Definition nonempty {A} (l : list A) : bool := match l with [] => false | _ => true end.

Section FileTools.
Context {W : Type} (os : OS W).

(** file_tools.py, read_file *)
Definition read_file_try (file_path : string) : M W string :=
  read_text os file_path.

Definition read_file (file_path : string) : M W string :=
  try_except (read_file_try file_path) [except_Exception "Error reading file"].

(** file_tools.py, write_file *)
Definition write_file_try (file_path content : string) : M W string :=
  makedirs os (Py.dirname file_path) ;;;
  write_text os file_path content ;;;
  ret ("Successfully wrote to " +:+ file_path).

Definition write_file (file_path content : string) : M W string :=
  try_except (write_file_try file_path content) [except_Exception "Error writing file"].

(** file_tools.py, list_directory *)
Definition list_directory_try (dir_path : string) : M W string :=
  ex <- observe (path_exists os dir_path) ;;
  if negb ex then ret ("Directory " +:+ Py.quoted dir_path +:+ " does not exist") else
  isd <- observe (path_isdir os dir_path) ;;
  if negb isd then ret (Py.quoted dir_path +:+ " is not a directory") else
  items <- listdir os dir_path ;;
  if negb (nonempty items) then ret ("Directory " +:+ Py.quoted dir_path +:+ " is empty") else
  fd <- for_each items ([], []) (λ '(files, dirs) item,
          let item_path := Py.path_join dir_path item in
          d <- observe (path_isdir os item_path) ;;
          if d then ret (files, dirs ++ ["[DIR] " +:+ item])
          else
            size <- path_getsize os item_path ;;
            ret (files ++ ["[FILE] " +:+ item +:+ " (" +:+ Py.str size +:+ " bytes)"], dirs)) ;;
  let '(files, dirs) := fd in
  let result := "Contents of " +:+ Py.quoted dir_path +:+ ":" +:+ Py.NL +:+ Py.NL in
  let result :=
    if nonempty dirs
    then result +:+ "Directories:" +:+ Py.NL +:+ Py.join Py.NL dirs +:+ Py.NL +:+ Py.NL
    else result in
  let result :=
    if nonempty files
    then result +:+ "Files:" +:+ Py.NL +:+ Py.join Py.NL files
    else result in
  ret result.

Definition list_directory (dir_path : string) : M W string :=
  try_except (list_directory_try dir_path) [except_Exception "Error listing directory"].

(** file_tools.py, create_directory *)
Definition create_directory_try (dir_path : string) : M W string :=
  makedirs os dir_path ;;;
  ret ("Successfully created directory " +:+ Py.quoted dir_path).

Definition create_directory (dir_path : string) : M W string :=
  try_except (create_directory_try dir_path) [except_Exception "Error creating directory"].

(** file_tools.py, delete_file_or_path *)
Definition delete_file_or_path_try (path : string) : M W string :=
  ex <- observe (path_exists os path) ;;
  if negb ex then ret ("Path " +:+ Py.quoted path +:+ " does not exist") else
  isd <- observe (path_isdir os path) ;;
  if isd then
    rmtree os path ;;;
    ret ("Successfully deleted directory " +:+ Py.quoted path)
  else
    remove os path ;;;
    ret ("Successfully deleted file " +:+ Py.quoted path).

Definition delete_file_or_path (path : string) : M W string :=
  try_except (delete_file_or_path_try path) [except_Exception "Error deleting path"].

(** file_tools.py, copy_file_or_path *)
Definition copy_file_or_path_try (src dst : string) : M W string :=
  ex <- observe (path_exists os src) ;;
  if negb ex then ret ("Source path " +:+ Py.quoted src +:+ " does not exist") else
  isd <- observe (path_isdir os src) ;;
  if isd then
    copytree os src dst ;;;
    ret ("Successfully copied directory from " +:+ Py.quoted src +:+ " to " +:+ Py.quoted dst)
  else
    copy2 os src dst ;;;
    ret ("Successfully copied file from " +:+ Py.quoted src +:+ " to " +:+ Py.quoted dst).

Definition copy_file_or_path (src dst : string) : M W string :=
  try_except (copy_file_or_path_try src dst) [except_Exception "Error copying"].

(** file_tools.py, move_file_or_path *)
Definition move_file_or_path_try (src dst : string) : M W string :=
  ex <- observe (path_exists os src) ;;
  if negb ex then ret ("Source path " +:+ Py.quoted src +:+ " does not exist") else
  move os src dst ;;;
  ret ("Successfully moved from " +:+ Py.quoted src +:+ " to " +:+ Py.quoted dst).

Definition move_file_or_path (src dst : string) : M W string :=
  try_except (move_file_or_path_try src dst) [except_Exception "Error moving"].

(** file_tools.py, get_file_info *)
Definition get_file_info_try (file_path : string) : M W string :=
  ex <- observe (path_exists os file_path) ;;
  if negb ex then ret ("Path " +:+ Py.quoted file_path +:+ " does not exist") else
  st <- stat os file_path ;;
  isd <- observe (path_isdir os file_path) ;;
  let info := "Information for " +:+ Py.quoted file_path +:+ ":" +:+ Py.NL +:+ Py.NL in
  let info := info +:+ "Type: " +:+ (if isd then "Directory" else "File") +:+ Py.NL in
  let info := info +:+ "Size: " +:+ Py.str (st_size st) +:+ " bytes" +:+ Py.NL in
  let info := info +:+ "Created: " +:+ st_ctime st +:+ Py.NL in
  let info := info +:+ "Modified: " +:+ st_mtime st +:+ Py.NL in
  let info := info +:+ "Accessed: " +:+ st_atime st +:+ Py.NL in
  isf <- observe (path_isfile os file_path) ;;
  let info :=
    if isf
    then info +:+ "Extension: " +:+ path_suffix os file_path +:+ Py.NL
              +:+ "Parent directory: " +:+ path_parent os file_path +:+ Py.NL
    else info in
  ret info.

Definition get_file_info (file_path : string) : M W string :=
  try_except (get_file_info_try file_path) [except_Exception "Error getting file info"].

(** file_tools.py, search_files *)
Definition search_files_try (dir_path pattern : string) : M W string :=
  ex <- observe (path_exists os dir_path) ;;
  if negb ex then ret ("Directory " +:+ Py.quoted dir_path +:+ " does not exist") else
  isd <- observe (path_isdir os dir_path) ;;
  if negb isd then ret (Py.quoted dir_path +:+ " is not a directory") else
  matches <- rglob os dir_path pattern ;;
  if negb (nonempty matches)
  then ret ("No files found matching pattern " +:+ Py.quoted pattern +:+ " in "
            +:+ Py.quoted dir_path)
  else
  let result := "Files matching pattern " +:+ Py.quoted pattern +:+ " in "
                +:+ Py.quoted dir_path +:+ ":" +:+ Py.NL +:+ Py.NL in
  for_each matches result (λ result m,
    isf <- observe (path_isfile os m) ;;
    if isf then
      st <- stat os m ;;
      ret (result +:+ "[FILE] " +:+ m +:+ " (" +:+ Py.str (st_size st) +:+ " bytes)" +:+ Py.NL)
    else
      ret (result +:+ "[DIR] " +:+ m +:+ Py.NL)).

Definition search_files (dir_path pattern : string) : M W string :=
  try_except (search_files_try dir_path pattern) [except_Exception "Error searching files"].



(** file_tools.py, change_working_directory *)
Definition change_working_directory_try (dir_path : string) : M W string :=
  chdir os dir_path ;;;
  cwd <- getcwd os ;;
  ret ("Successfully changed directory to " +:+ Py.quoted dir_path
       +:+ ". Current directory: " +:+ cwd).

Definition change_working_directory (dir_path : string) : M W string :=
  try_except (change_working_directory_try dir_path)
    [except_Exception "Error changing directory"].

End FileTools.

Section BashTools.
Context {W : Type} (os : OS W).

(** [subprocess.run(command, shell=True, capture_output=True, text=True,
    cwd=cwd, timeout=timeout)], as CPython defines it:
    [with Popen(...) as process: try: communicate(timeout) except: ...].
    On any exception of [communicate] the child is killed and the exception
    raised again; an exception of [process.kill()] takes its place.  Either
    way the child is waited for before the exception leaves: by the handler
    for TimeoutExpired after the kill, by [Popen.__exit__] otherwise (for a
    KeyboardInterrupt that wait is a bounded one; where the child has been
    waited for already, by [communicate] or by the handler, [__exit__] has
    nothing left to do and is not written). *)
Definition subprocess_run (command : string) (cwd : option string)
    (timeout : option Z) : M W completed :=
  process <- popen os command cwd ;;
  try_except (communicate os process None timeout)
    [Except (λ _, true) (λ e,
       leaving <- try_except (kill os process ;;; ret e) [Except (λ _, true) ret] ;;
       wait os process ;;;
       raise leaving)].

(** bash_tools.py, execute_command *)
Definition execute_command_try (command : string) : M W string :=
  result <- subprocess_run command None (Some 30) ;;
  let output := EmptyString in
  let output :=
    if truthy (stdout result)
    then output +:+ "STDOUT:" +:+ Py.NL +:+ stdout result else output in
  let output :=
    if truthy (stderr result)
    then output +:+ Py.NL +:+ "STDERR:" +:+ Py.NL +:+ stderr result else output in
  let output :=
    if negb (truthy output)
    then "Command executed successfully with no output" else output in
  let output :=
    output +:+ Py.NL +:+ Py.NL +:+ "Exit code: " +:+ Py.str (returncode result) in
  ret output.

Definition execute_command (command : string) : M W string :=
  try_except (execute_command_try command)
    [Except is_TimeoutExpired
       (λ _, ret ("Command timed out after 30 seconds: " +:+ command));
     except_Exception "Error executing command"].

(** bash_tools.py, execute_command_with_cwd *)
Definition execute_command_with_cwd_try (command working_dir : string) : M W string :=
  ex <- observe (path_exists os working_dir) ;;
  if negb ex
  then ret ("Working directory " +:+ Py.quoted working_dir +:+ " does not exist") else
  isd <- observe (path_isdir os working_dir) ;;
  if negb isd then ret (Py.quoted working_dir +:+ " is not a directory") else
  result <- subprocess_run command (Some working_dir) (Some 30) ;;
  let output := "Command executed in directory: " +:+ working_dir +:+ Py.NL +:+ Py.NL in
  let output :=
    if truthy (stdout result)
    then output +:+ "STDOUT:" +:+ Py.NL +:+ stdout result else output in
  let output :=
    if truthy (stderr result)
    then output +:+ Py.NL +:+ "STDERR:" +:+ Py.NL +:+ stderr result else output in
  let output :=
    if negb (truthy (stdout result)) && negb (truthy (stderr result))
    then output +:+ "Command executed successfully with no output" else output in
  let output :=
    output +:+ Py.NL +:+ Py.NL +:+ "Exit code: " +:+ Py.str (returncode result) in
  ret output.

Definition execute_command_with_cwd (command working_dir : string) : M W string :=
  try_except (execute_command_with_cwd_try command working_dir)
    [Except is_TimeoutExpired
       (λ _, ret ("Command timed out after 30 seconds: " +:+ command));
     except_Exception "Error executing command"].




(** bash_tools.py, check_command_exists *)
Definition check_command_exists_try (command : string) : M W string :=
  command_name <-
    (if truthy (Py.strip command)
     then
       parts <- lift (shlex_split os command) ;;
       match parts with
       | first :: _ => ret first
       | [] => raise (Exn OtherException "list index out of range")
       end
     else ret EmptyString) ;;
  if negb (truthy command_name) then ret "No command provided" else
  result <- subprocess_run ("which " +:+ command_name) None None ;;
  if bool_decide (returncode result = 0)
  then ret ("Command " +:+ Py.quoted command_name +:+ " exists at: "
            +:+ Py.strip (stdout result))
  else ret ("Command " +:+ Py.quoted command_name +:+ " not found in PATH").

Definition check_command_exists (command : string) : M W string :=
  try_except (check_command_exists_try command) [except_Exception "Error checking command"].

(** bash_tools.py, get_environment_variable *)
Definition get_environment_variable_try (var_name : string) : M W string :=
  value <- observe (environ_get os var_name) ;;
  match value with
  | Some v => ret (var_name +:+ "=" +:+ v)
  | None => ret ("Environment variable " +:+ Py.quoted var_name +:+ " is not set")
  end.

Definition get_environment_variable (var_name : string) : M W string :=
  try_except (get_environment_variable_try var_name)
    [except_Exception "Error getting environment variable"].

(** bash_tools.py, set_environment_variable *)
Definition set_environment_variable_try (var_name value : string) : M W string :=
  environ_set os var_name value ;;;
  ret ("Successfully set " +:+ var_name +:+ "=" +:+ value).

Definition set_environment_variable (var_name value : string) : M W string :=
  try_except (set_environment_variable_try var_name value)
    [except_Exception "Error setting environment variable"].








End BashTools.

(** ** The markdown reading tools *)

(** [re.match(r'^(#{1,6})\s+(.+)$', line)], by backtracking as [re] does.
    Each function matches a suffix of the pattern at the start of its
    argument and prefers the longer repetition. *)
Module HeaderRe.

Fixpoint no_LF (s : string) : bool :=
  match s with
  | EmptyString => true
  | String c s' => negb (bool_decide (c = Py.LF)) && no_LF s'
  end.

Fixpoint drop_final_LF (s : string) : string :=
  match s with
  | EmptyString => EmptyString
  | String c EmptyString => if bool_decide (c = Py.LF) then EmptyString else s
  | String c s' => String c (drop_final_LF s')
  end.

(** [(.+)$]: one or more characters other than LF, up to the end of the
    string or to a final LF.  The result is group 2. *)
Definition rest_of_line (s : string) : option string :=
  let body := drop_final_LF s in
  if truthy body && no_LF body then Some body else None.

(** [\s+(.+)$]: the run of whitespace is taken as long as the rest still
    matches. *)
Fixpoint spaces_then_rest (s : string) : option string :=
  match s with
  | EmptyString => None
  | String c s' =>
      if Py.isspace c then
        match spaces_then_rest s' with
        | Some g => Some g
        | None => rest_of_line s'
        end
      else None
  end.

(** [(#{1,6})\s+(.+)$] after [k] hashes have been taken, at most [more]
    further ones allowed.  The result is the length of group 1 and group 2. *)
Fixpoint hashes_then (more : nat) (k : Z) (s : string) : option (Z * string) :=
  let stop := if 1 <=? k then pair k <$> spaces_then_rest s else None in
  match more, s with
  | S more', String c s' =>
      if bool_decide (c = "#"%char) then
        match hashes_then more' (k + 1) s' with
        | Some r => Some r
        | None => stop
        end
      else stop
  | _, _ => stop
  end.

(** [len(m.group(1))] and [m.group(2)], or [None] when there is no match. *)
Definition header_match (line : string) : option (Z * string) :=
  hashes_then 6 0 line.

End HeaderRe.

(** The dictionary [{'name': ..., 'level': ..., 'line': ...}] of a section. *)
Record section_info := Section_info { name : string; level : Z; line : Z }.

(** The variables of the section loop of read_markdown_sections. *)
Record scan := Scan {
  sections : list (section_info * string);
  current_section : option section_info;
  current_content : list string }.

(** [if current_section is not None:
      sections.append((current_section, '\n'.join(current_content)))]:
    the list [sections] once the section that is open, if any, is saved. *)
Definition saved (st : scan) : list (section_info * string) :=
  match current_section st with
  | Some cur => sections st ++ [(cur, Py.join Py.NL (current_content st))]
  | None => sections st
  end.

(** [getitem l i] is [l[i]] with Python's negative indices; [what] names
    the sequence in the IndexError. *)
Definition getitem {A} (what : string) (l : list A) (i : Z) : outcome A :=
  let n := Z.of_nat (length l) in
  let j := if i <? 0 then n + i else i in
  if (0 <=? j) && (j <? n) then
    match l !! Z.to_nat j with
    | Some x => Ret x
    | None => Raise (Exn OtherException (what +:+ " index out of range"))
    end
  else Raise (Exn OtherException (what +:+ " index out of range")).

(** One iteration of [for line in lines:] in read_markdown_sections. *)
Definition scan_line (lines : list string) (st : scan) (ln : string) : outcome scan :=
  match HeaderRe.header_match ln with
  | Some (hashes, title) =>
      match Py.index lines ln with
      | Some i =>
          Ret (Scan (saved st)
                 (Some (Section_info (Py.strip title) hashes (Z.of_nat i + 1)))
                 [ln])
      | None => Raise (Exn OtherException (Py.quoted ln +:+ " is not in list"))
      end
  | None =>
      match current_section st with
      | Some _ => Ret (Scan (sections st) (current_section st) (current_content st ++ [ln]))
      | None =>
          Ret (Scan (sections st) None
                 (if nonempty (current_content st) then current_content st ++ [ln] else [ln]))
      end
  end.

Fixpoint scan_lines (lines : list string) (st : scan) (todo : list string) : outcome scan :=
  match todo with
  | [] => Ret st
  | ln :: todo' =>
      match scan_line lines st ln with
      | Ret st' => scan_lines lines st' todo'
      | Raise e => Raise e
      end
  end.

(** The list [sections] of read_markdown_sections once the last section is
    saved, from the text of the file. *)
Definition parse_sections (content : string) : outcome (list (section_info * string)) :=
  let lines := Py.splitlines content in
  match scan_lines lines (Scan [] None []) lines with
  | Ret st => Ret (saved st)
  | Raise e => Raise e
  end.

(** The listing of all sections ([section_name is None]). *)
Definition list_sections (file_path : string) (secs : list (section_info * string)) : string :=
  let result := "=== Sections in " +:+ file_path +:+ " ===" +:+ Py.NL +:+ Py.NL in
  let result :=
    match secs with
    | (first, _) :: _ =>
        if negb (truthy (name first))
        then result +:+ "[Preamble] (Lines 1-" +:+ Py.str (line first - 1) +:+ ")" +:+ Py.NL
        else result
    | [] => result
    end in
  fold_left (λ result '(info, _),
    if truthy (name info)
    then result +:+ Py.repeat_str "  " (level info - 1) +:+ "- " +:+ name info
                +:+ " (Line " +:+ Py.str (line info) +:+ ")" +:+ Py.NL
    else result) secs result.

(** The loop that looks a section up by name: the first section, in order,
    whose name is not empty and contains the query, both in lower case. *)
Fixpoint find_section (section_name : string) (secs : list (section_info * string))
    : option (section_info * string) :=
  match secs with
  | [] => None
  | (info, content) :: secs' =>
      if truthy (name info) && Py.contains (Py.lower (name info)) (Py.lower section_name)
      then Some (info, content)
      else find_section section_name secs'
  end.

Definition show_section (found : section_info * string) : string :=
  let '(info, content) := found in
  "=== Section: " +:+ name info +:+ " ===" +:+ Py.NL +:+
  "Line: " +:+ Py.str (line info) +:+ ", Level: " +:+ Py.str (level info)
  +:+ Py.NL +:+ Py.NL +:+ content.

(** The matches of search_markdown_content: for each matching line its
    1-based number and its context, rendered. *)
Definition context_text (lines : list string) (context_lines i : Z) : string :=
  let start_line := Z.max 0 (i - context_lines) in
  let end_line := Z.min (Z.of_nat (length lines)) (i + context_lines + 1) in
  let context_lines_list := Py.slice lines start_line end_line in
  let match_line_in_context := i - start_line in
  fold_left (λ text '(j, ctx_line),
    let line_num := start_line + j + 1 in
    let marker := if bool_decide (j = match_line_in_context) then ">>> " else "    " in
    text +:+ marker +:+ Py.fmt_4d line_num +:+ " | " +:+ ctx_line)
    (Py.enumerate 0 context_lines_list) EmptyString.

Definition search_matches (lines : list string) (search_term : string) (context_lines : Z)
    : list (Z * string) :=
  let search_term_lower := Py.lower search_term in
  fold_left (λ matches '(i, ln),
    if Py.contains (Py.lower ln) search_term_lower
    then matches ++ [(i + 1, context_text lines context_lines i)]
    else matches)
    (Py.enumerate 0 lines) [].

Section PaperTools.
Context {W : Type} (os : OS W).

(** [with open(file_path, 'r', encoding='utf-8') as f: lines = f.readlines()] *)
Definition read_lines (file_path : string) : M W (list string) :=
  content <- read_text os file_path ;;
  ret (Py.readlines content).

Definition missing_file (file_path : string) : string :=
  "Error: File " +:+ Py.quoted file_path +:+ " does not exist".

(** [start_idx], [end_idx] and [selected_lines] of read_markdown_lines. *)
Definition start_index (start_line : Z) : Z := Z.max 0 (start_line - 1).

Definition end_index (total_lines : Z) (end_line : option Z) : Z :=
  match end_line with
  | None => total_lines
  | Some end_line => Z.min total_lines end_line
  end.

Definition selected_lines (lines : list string) (start_line : Z) (end_line : option Z)
    : list string :=
  Py.slice lines (start_index start_line) (end_index (Z.of_nat (length lines)) end_line).

(** paper_tools.py, read_markdown_lines ([end_line] defaults to [None]) *)
Definition read_markdown_lines_try (file_path : string) (start_line : Z)
    (end_line : option Z) : M W string :=
  ex <- observe (path_exists os file_path) ;;
  if negb ex then ret (missing_file file_path) else
  lines <- read_lines file_path ;;
  let total_lines := Z.of_nat (length lines) in
  let start_idx := start_index start_line in
  if total_lines <=? start_idx
  then ret ("Error: Start line " +:+ Py.str start_line +:+ " is beyond file length ("
            +:+ Py.str total_lines +:+ " lines)")
  else
  let selected_lines := selected_lines lines start_line end_line in
  let line_numbers :=
    Py.range start_line
      (Z.min (start_line + Z.of_nat (length selected_lines)) (total_lines + 1)) in
  first <- lift (getitem "range object" line_numbers 0) ;;
  last <- lift (getitem "range object" line_numbers (-1)) ;;
  let result := "=== Lines " +:+ Py.str first +:+ "-" +:+ Py.str last +:+ " from "
                +:+ file_path +:+ " ===" +:+ Py.NL in
  let result := result +:+ "Total file lines: " +:+ Py.str total_lines
                +:+ Py.NL +:+ Py.NL in
  for_each (Py.enumerate 0 selected_lines) result (λ result '(i, ln),
    number <- lift (getitem "range object" line_numbers i) ;;
    ret (result +:+ Py.fmt_4d number +:+ " | " +:+ ln)).

Definition read_markdown_lines (file_path : string) (start_line : Z)
    (end_line : option Z) : M W string :=
  try_except (read_markdown_lines_try file_path start_line end_line)
    [except_Exception "Error reading markdown lines"].

(** [a // b] *)
Definition floordiv (a b : Z) : outcome Z :=
  if bool_decide (b = 0)
  then Raise (Exn OtherException "integer division or modulo by zero")
  else Ret (a / b).

(** [total_pages = (total_lines + lines_per_page - 1) // lines_per_page] *)
Definition total_pages (total_lines lines_per_page : Z) : outcome Z :=
  floordiv (total_lines + lines_per_page - 1) lines_per_page.

(** [start_idx], [end_idx] and [page_lines] of read_markdown_pages. *)
Definition page_start (page_num lines_per_page : Z) : Z :=
  (page_num - 1) * lines_per_page.

Definition page_end (page_num lines_per_page total_lines : Z) : Z :=
  Z.min (page_num * lines_per_page) total_lines.

Definition page_lines (lines : list string) (page_num lines_per_page : Z) : list string :=
  Py.slice lines (page_start page_num lines_per_page)
    (page_end page_num lines_per_page (Z.of_nat (length lines))).

(** paper_tools.py, read_markdown_pages ([page_num] defaults to [None],
    [lines_per_page] to 50) *)
Definition read_markdown_pages_try (file_path : string) (page_num : option Z)
    (lines_per_page : Z) : M W string :=
  ex <- observe (path_exists os file_path) ;;
  if negb ex then ret (missing_file file_path) else
  lines <- read_lines file_path ;;
  let total_lines := Z.of_nat (length lines) in
  total_pages <- lift (total_pages total_lines lines_per_page) ;;
  match page_num with
  | None =>
      let result := "=== File: " +:+ file_path +:+ " ===" +:+ Py.NL in
      let result := result +:+ "Total lines: " +:+ Py.str total_lines +:+ Py.NL in
      let result := result +:+ "Lines per page: " +:+ Py.str lines_per_page +:+ Py.NL in
      let result := result +:+ "Total pages: " +:+ Py.str total_pages
                    +:+ Py.NL +:+ Py.NL in
      ret (fold_left (λ result i,
             let start_line := (i - 1) * lines_per_page + 1 in
             let end_line := Z.min (i * lines_per_page) total_lines in
             result +:+ "Page " +:+ Py.str i +:+ ": Lines " +:+ Py.str start_line
                    +:+ "-" +:+ Py.str end_line +:+ Py.NL)
           (Py.range 1 (total_pages + 1)) result)
  | Some page_num =>
      if (page_num <? 1) || (total_pages <? page_num)
      then ret ("Error: Page " +:+ Py.str page_num +:+ " is out of range. File has "
                +:+ Py.str total_pages +:+ " pages.")
      else
      let start_idx := page_start page_num lines_per_page in
      let end_idx := page_end page_num lines_per_page total_lines in
      let start_line := start_idx + 1 in
      let end_line := end_idx in
      let result := "=== Page " +:+ Py.str page_num +:+ "/" +:+ Py.str total_pages
                    +:+ " from " +:+ file_path +:+ " ===" +:+ Py.NL in
      let result := result +:+ "Lines " +:+ Py.str start_line +:+ "-" +:+ Py.str end_line
                    +:+ " of " +:+ Py.str total_lines +:+ Py.NL +:+ Py.NL in
      ret (fold_left (λ result '(i, ln),
             result +:+ Py.fmt_4d (start_line + i) +:+ " | " +:+ ln)
           (Py.enumerate 0 (page_lines lines page_num lines_per_page)) result)
  end.

Definition read_markdown_pages (file_path : string) (page_num : option Z)
    (lines_per_page : Z) : M W string :=
  try_except (read_markdown_pages_try file_path page_num lines_per_page)
    [except_Exception "Error reading markdown pages"].

(** paper_tools.py, read_markdown_sections ([section_name] defaults to [None]) *)
Definition read_markdown_sections_try (file_path : string)
    (section_name : option string) : M W string :=
  ex <- observe (path_exists os file_path) ;;
  if negb ex then ret (missing_file file_path) else
  content <- read_text os file_path ;;
  secs <- lift (parse_sections content) ;;
  match section_name with
  | None => ret (list_sections file_path secs)
  | Some section_name =>
      match find_section section_name secs with
      | Some found => ret (show_section found)
      | None => ret ("Error: Section " +:+ Py.quoted section_name +:+ " not found in file")
      end
  end.

Definition read_markdown_sections (file_path : string)
    (section_name : option string) : M W string :=
  try_except (read_markdown_sections_try file_path section_name)
    [except_Exception "Error reading markdown sections"].

(** paper_tools.py, search_markdown_content ([context_lines] defaults to 3) *)
Definition search_markdown_content_try (file_path search_term : string)
    (context_lines : Z) : M W string :=
  ex <- observe (path_exists os file_path) ;;
  if negb ex then ret (missing_file file_path) else
  lines <- read_lines file_path ;;
  let matches := search_matches lines search_term context_lines in
  if negb (nonempty matches)
  then ret ("No matches found for " +:+ Py.quoted search_term +:+ " in " +:+ file_path)
  else
  let count := Z.of_nat (length matches) in
  let result := "=== Search Results for " +:+ Py.quoted search_term +:+ " in "
                +:+ file_path +:+ " ===" +:+ Py.NL in
  let result := result +:+ "Found " +:+ Py.str count +:+ " match"
                +:+ (if bool_decide (count ≠ 1) then "es" else "")
                +:+ Py.NL +:+ Py.NL in
  ret (fold_left (λ result '(i, (line_num, context)),
         result +:+ "Match " +:+ Py.str i +:+ " (Line " +:+ Py.str line_num +:+ "):"
                +:+ Py.NL +:+ context +:+ Py.NL)
       (Py.enumerate 1 matches) result).

Definition search_markdown_content (file_path search_term : string)
    (context_lines : Z) : M W string :=
  try_except (search_markdown_content_try file_path search_term context_lines)
    [except_Exception "Error searching markdown content"].

End PaperTools.

(** ** The tool registries *)







Section Invoke.
Context {W : Type} (os : OS W).



End Invoke.




(** ** A reference machine

    A POSIX-like implementation of [OS] to run the tools on: files and
    directories indexed by their path as written (paths are not resolved
    against the working directory), text-mode newline translation with
    [os.linesep] a single LF, an environment, and child processes that
    behave as a script says. *)
Module Ref.

(** A directory; a regular file whose bytes are the UTF-8 encoding of a
    text, with that text (the stored characters, line ends as stored): a
    file that is [readable] can be opened for reading and for writing, one
    that is not exists but cannot be opened; or a regular
    file whose bytes are not the UTF-8 encoding of any text, with
    [complaint] the message of the UnicodeDecodeError that decoding them
    raises. *)
Inductive node :=
  | Dir
  | File (data : string) (readable : bool)
  | Binary (bytes : string) (complaint : string).

(** What a command line does when run: it exits by itself at once, or it
    runs until it is killed, or it runs under another user id (as
    [exec sudo ...] does, which puts sudo in the place of the shell) past
    every timeout: the caller may not signal such a child, which ends by
    itself in the end. *)
Inductive program := Exits (out err : string) (code : Z) | Hangs | Unkillable.

Inductive status := Running | Exited | Killed.

Record world := World {
  files : gmap string node;
  cwd : string;
  environ : gmap string string;
  programs : gmap string program;
  children : list (string * status) }.

Definition no_such_file (p : string) : exn :=
  Exn OtherException ("[Errno 2] No such file or directory: " +:+ Py.quoted p).
Definition is_a_directory (p : string) : exn :=
  Exn OtherException ("[Errno 21] Is a directory: " +:+ Py.quoted p).
Definition not_a_directory (p : string) : exn :=
  Exn OtherException ("[Errno 20] Not a directory: " +:+ Py.quoted p).
Definition permission_denied (p : string) : exn :=
  Exn OtherException ("[Errno 13] Permission denied: " +:+ Py.quoted p).
Definition file_exists (p : string) : exn :=
  Exn OtherException ("[Errno 17] File exists: " +:+ Py.quoted p).

Definition set_files (f : gmap string node → gmap string node) (w : world) : world :=
  World (f (files w)) (cwd w) (environ w) (programs w) (children w).

(** Reading in text mode with universal newlines: CR LF and a lone CR
    both arrive as LF. *)
Fixpoint universal_newlines (s : string) : string :=
  match s with
  | EmptyString => EmptyString
  | String c s' =>
      if bool_decide (c = Py.CR) then
        match s' with
        | String c' s'' =>
            if bool_decide (c' = Py.LF) then String Py.LF (universal_newlines s'')
            else String Py.LF (universal_newlines s')
        | EmptyString => String Py.LF EmptyString
        end
      else String c (universal_newlines s')
  end.

(** Writing in text mode: every LF becomes [os.linesep], here LF itself. *)
Definition to_linesep (s : string) : string := s.

Definition exists_ (p : string) (w : world) : bool := bool_decide (is_Some (files w !! p)).

Definition isdir (p : string) (w : world) : bool :=
  match files w !! p with Some Dir => true | _ => false end.

Definition isfile (p : string) (w : world) : bool :=
  match files w !! p with Some (File _ _) | Some (Binary _ _) => true | _ => false end.

(** Opening for reading, then [f.read()]: the bytes are decoded as UTF-8,
    which raises UnicodeDecodeError on bytes that are no UTF-8, and the line
    ends of the decoded text are translated. *)
Definition read_text (p : string) : M world string := λ w,
  match files w !! p with
  | None => (Raise (no_such_file p), w)
  | Some Dir => (Raise (is_a_directory p), w)
  | Some (File data true) => (Ret (universal_newlines data), w)
  | Some (File _ false) => (Raise (permission_denied p), w)
  | Some (Binary _ complaint) => (Raise (Exn OtherException complaint), w)
  end.

(** The directory a new entry [p] goes into must exist; the empty
    directory name stands for the working directory. *)
Definition parent_ok (p : string) (w : world) : bool :=
  bool_decide (Py.dirname p = EmptyString) || isdir (Py.dirname p) w.

Definition write_text (p content : string) : M world unit := λ w,
  match files w !! p with
  | Some Dir => (Raise (is_a_directory p), w)
  | Some (File _ false) => (Raise (permission_denied p), w)
  | Some (File _ true) | Some (Binary _ _) =>
      (Ret tt, set_files <[p := File (to_linesep content) true]> w)
  | None =>
      if parent_ok p w
      then (Ret tt, set_files <[p := File (to_linesep content) true]> w)
      else (Raise (no_such_file p), w)
  end.

(** [os.makedirs(d, exist_ok=True)]: the missing ancestors first, then
    [d]; an existing directory is accepted, an existing file is not. *)
Fixpoint mkdir_p (fuel : nat) (d : string) (m : gmap string node)
    : outcome (gmap string node) :=
  match m !! d with
  | Some Dir => Ret m
  | Some (File _ _) | Some (Binary _ _) => Raise (file_exists d)
  | None =>
      let parent := Py.dirname d in
      match fuel with
      | S fuel' =>
          if bool_decide (parent = EmptyString) || bool_decide (parent = d)
          then Ret (<[d := Dir]> m)
          else match mkdir_p fuel' parent m with
               | Ret m' => Ret (<[d := Dir]> m')
               | Raise e => Raise e
               end
      | O => Ret (<[d := Dir]> m)
      end
  end.

Definition makedirs (d : string) : M world unit := λ w,
  if bool_decide (d = EmptyString) then (Raise (no_such_file d), w)
  else match mkdir_p (String.length d) d (files w) with
       | Ret m => (Ret tt, set_files (λ _, m) w)
       | Raise e => (Raise e, w)
       end.

(** [k] lies below the directory [d]. *)
Definition below (d k : string) : bool := Py.startswith k (d +:+ "/").

(** The last component of a path, and a path without its first [n]
    characters. *)
Fixpoint has_slash (p : string) : bool :=
  match p with
  | EmptyString => false
  | String c p' => bool_decide (c = Py.SLASH) || has_slash p'
  end.

Fixpoint basename (p : string) : string :=
  match p with
  | EmptyString => EmptyString
  | String c p' =>
      if has_slash p' then basename p'
      else if bool_decide (c = Py.SLASH) then p' else p
  end.

Fixpoint string_drop (n : nat) (s : string) : string :=
  match n, s with
  | S n', String _ s' => string_drop n' s'
  | _, _ => s
  end.

Definition getsize (p : string) : M world Z := λ w,
  match files w !! p with
  | Some (File data _) | Some (Binary data _) => (Ret (Py.len data), w)
  | Some Dir => (Ret 4096, w)
  | None => (Raise (no_such_file p), w)
  end.

Definition entries (d : string) (m : gmap string node) : list string :=
  basename <$> filter (λ k, k ≠ d ∧ Py.dirname k = d) (fst <$> map_to_list m).

Definition listdir (d : string) : M world (list string) := λ w,
  match files w !! d with
  | Some Dir => (Ret (entries d (files w)), w)
  | Some (File _ _) | Some (Binary _ _) => (Raise (not_a_directory d), w)
  | None => (Raise (no_such_file d), w)
  end.

Definition remove (p : string) : M world unit := λ w,
  match files w !! p with
  | Some (File _ _) | Some (Binary _ _) => (Ret tt, set_files (delete p) w)
  | Some Dir => (Raise (is_a_directory p), w)
  | None => (Raise (no_such_file p), w)
  end.

(** The entries at or below [src], and the same entries renamed to lie at
    or below [dst]. *)
Definition subtree (src : string) (m : gmap string node) : list (string * node) :=
  filter (λ kv, kv.1 = src ∨ below src kv.1 = true) (map_to_list m).

Definition renamed (src dst : string) (kvs : list (string * node)) : list (string * node) :=
  (λ kv, (dst +:+ string_drop (String.length src) kv.1, kv.2)) <$> kvs.

Definition without (src : string) (m : gmap string node) : gmap string node :=
  filter (λ kv, ¬ (kv.1 = src ∨ below src kv.1 = true)) m.

Definition rmtree (p : string) : M world unit := λ w,
  match files w !! p with
  | Some Dir => (Ret tt, set_files (without p) w)
  | Some (File _ _) | Some (Binary _ _) => (Raise (not_a_directory p), w)
  | None => (Raise (no_such_file p), w)
  end.

Definition copytree (src dst : string) : M world unit := λ w,
  match files w !! src with
  | Some Dir =>
      if exists_ dst w then (Raise (file_exists dst), w)
      else if negb (parent_ok dst w) then (Raise (no_such_file dst), w)
      else (Ret tt, set_files (λ m, list_to_map (renamed src dst (subtree src m)) ∪ m) w)
  | Some (File _ _) | Some (Binary _ _) => (Raise (not_a_directory src), w)
  | None => (Raise (no_such_file src), w)
  end.

(** A copy or a move into an existing directory keeps the last component
    of the source. *)
Definition target (src dst : string) (w : world) : string :=
  if isdir dst w then Py.path_join dst (basename src) else dst.

Definition copy2 (src dst : string) : M world unit := λ w,
  match files w !! src with
  | Some (File data true) =>
      let t := target src dst w in
      if parent_ok t w then (Ret tt, set_files <[t := File data true]> w)
      else (Raise (no_such_file t), w)
  | Some (Binary bytes complaint) =>
      let t := target src dst w in
      if parent_ok t w then (Ret tt, set_files <[t := Binary bytes complaint]> w)
      else (Raise (no_such_file t), w)
  | Some (File _ false) => (Raise (permission_denied src), w)
  | Some Dir => (Raise (is_a_directory src), w)
  | None => (Raise (no_such_file src), w)
  end.

Definition move (src dst : string) : M world unit := λ w,
  match files w !! src with
  | Some _ =>
      let t := target src dst w in
      if isdir dst w && exists_ t w
      then (Raise (Exn OtherException
              ("Destination path " +:+ Py.quoted t +:+ " already exists")), w)
      else if negb (parent_ok t w) then (Raise (no_such_file t), w)
      else (Ret tt, set_files (λ m,
              list_to_map (renamed src t (subtree src m)) ∪ without src m) w)
  | None => (Raise (no_such_file src), w)
  end.

Definition stat (p : string) : M world stat_result := λ w,
  match files w !! p with
  | Some (File data _) | Some (Binary data _) =>
      (Ret (Stat (Py.len data) "0.0" "0.0" "0.0"), w)
  | Some Dir => (Ret (Stat 4096 "0.0" "0.0" "0.0"), w)
  | None => (Raise (no_such_file p), w)
  end.

(** [Path(p).suffix]: the last component from its last dot on, when that
    dot is neither its first nor its last character. *)
Fixpoint has_dot (s : string) : bool :=
  match s with
  | EmptyString => false
  | String c s' => bool_decide (c = "."%char) || has_dot s'
  end.

Fixpoint from_last_dot (s : string) : string :=
  match s with
  | EmptyString => EmptyString
  | String c s' =>
      if has_dot s' then from_last_dot s'
      else if bool_decide (c = "."%char) then s else EmptyString
  end.

Definition path_suffix (p : string) : string :=
  match basename p with
  | EmptyString => EmptyString
  | String _ tail =>
      let suffix := from_last_dot tail in
      if bool_decide (suffix = ".") then EmptyString else suffix
  end.

(** [Path(p).parent] *)
Definition path_parent (p : string) : string :=
  if truthy (Py.dirname p) then Py.dirname p else ".".

(** [fnmatch] with the wildcards [*] and [?]. *)
Fixpoint glob (pattern : string) : string → bool :=
  match pattern with
  | EmptyString => λ s, bool_decide (s = EmptyString)
  | String c pattern' =>
      if bool_decide (c = "*"%char) then
        fix star (s : string) : bool :=
          glob pattern' s ||
          match s with
          | EmptyString => false
          | String _ s' => star s'
          end
      else λ s,
        match s with
        | EmptyString => false
        | String c' s' =>
            (bool_decide (c = "?"%char) || bool_decide (c = c')) && glob pattern' s'
        end
  end.

Definition rglob (d pattern : string) : M world (list string) := λ w,
  (Ret (filter (λ k, below d k = true ∧ glob pattern (basename k) = true)
          (fst <$> map_to_list (files w))), w).

Definition getcwd : M world string := λ w, (Ret (cwd w), w).

Definition chdir (d : string) : M world unit := λ w,
  match files w !! d with
  | Some Dir => (Ret tt, World (files w) d (environ w) (programs w) (children w))
  | Some (File _ _) | Some (Binary _ _) => (Raise (not_a_directory d), w)
  | None => (Raise (no_such_file d), w)
  end.

(** A command line the script does not list is not found by the shell. *)
Definition behaviour (command : string) (w : world) : program :=
  match programs w !! command with
  | Some b => b
  | None => Exits "" ("/bin/sh: 1: " +:+ command +:+ ": not found" +:+ Py.NL) 127
  end.

Definition set_children (f : list (string * status) → list (string * status))
    (w : world) : world :=
  World (files w) (cwd w) (environ w) (programs w) (f (children w)).

(** The handle of a child is its position in [children]. *)
Definition popen (command : string) (dir : option string) : M world nat := λ w,
  match dir with
  | Some d =>
      if isdir d w
      then (Ret (length (children w)), set_children (λ l, l ++ [(command, Running)]) w)
      else (Raise (no_such_file d), w)
  | None => (Ret (length (children w)), set_children (λ l, l ++ [(command, Running)]) w)
  end.

Definition set_status (p : nat) (s : status) (w : world) : world :=
  set_children (λ l, match l !! p with
                     | Some (command, _) => <[p := (command, s)]> l
                     | None => l
                     end) w.

Definition timeout_expired (command : string) (t : Z) : exn :=
  Exn TimeoutExpired
    ("Command " +:+ Py.quoted command +:+ " timed out after " +:+ Py.str t +:+ " seconds").

Definition keyboard_interrupt : exn := Exn BaseOnly "KeyboardInterrupt".

Definition operation_not_permitted : exn :=
  Exn OtherException "[Errno 1] Operation not permitted".

(** A child that exits hands over its output; one that runs on makes
    [communicate] raise TimeoutExpired when the timeout passes.  Without a
    timeout only an interrupt ends the wait for a child that hangs, and the
    child that ends by itself is waited for. *)
Definition communicate (p : nat) (input : option string) (timeout : option Z)
    : M world completed := λ w,
  match children w !! p with
  | Some (command, Running) =>
      match behaviour command w, timeout with
      | Exits out err code, _ => (Ret (Completed out err code), set_status p Exited w)
      | _, Some t => (Raise (timeout_expired command t), w)
      | Hangs, None => (Raise keyboard_interrupt, w)
      | Unkillable, None => (Ret (Completed "" "" 0), set_status p Exited w)
      end
  | _ => (Raise (Exn OtherException "Cannot send input after starting communication"), w)
  end.

(** [process.kill()]: nothing to do for a child that has ended;
    PermissionError for a running child of another user. *)
Definition kill (p : nat) : M world unit := λ w,
  match children w !! p with
  | Some (command, Running) =>
      match behaviour command w with
      | Unkillable => (Raise operation_not_permitted, w)
      | _ => (Ret tt, set_status p Killed w)
      end
  | _ => (Ret tt, w)
  end.

(** [process.wait()]: returns once the child has ended; a running child
    that hangs never ends, and only an interrupt ends the wait. *)
Definition wait (p : nat) : M world unit := λ w,
  match children w !! p with
  | Some (command, Running) =>
      match behaviour command w with
      | Hangs => (Raise keyboard_interrupt, w)
      | _ => (Ret tt, set_status p Exited w)
      end
  | _ => (Ret tt, w)
  end.

(** [shlex.split] on command lines without quoting: the words between
    whitespace.  A quote character raises as an unclosed quotation does. *)
Fixpoint has_quote (s : string) : bool :=
  match s with
  | EmptyString => false
  | String c s' => bool_decide (c = "'"%char) || bool_decide (Py.code c = 34) || has_quote s'
  end.

Definition shlex_split (s : string) : outcome (list string) :=
  if has_quote s then Raise (Exn OtherException "No closing quotation")
  else Ret (String.words s).

Definition environ_get (var_name : string) (w : world) : option string :=
  environ w !! var_name.

Fixpoint has_NUL (s : string) : bool :=
  match s with
  | EmptyString => false
  | String c s' => bool_decide (Py.code c = 0) || has_NUL s'
  end.

(** [os.environ[name] = value]: ValueError for a NUL in the name or in the
    value and for an [=] in the name; setenv(3) refuses the empty name; the
    mapping is updated only when all that passed. *)
Definition environ_set (var_name value : string) : M world unit := λ w,
  if has_NUL var_name || has_NUL value
  then (Raise (Exn OtherException "embedded null byte"), w)
  else if Py.contains var_name "="
  then (Raise (Exn OtherException "illegal environment variable name"), w)
  else if bool_decide (var_name = EmptyString)
  then (Raise (Exn OtherException "[Errno 22] Invalid argument"), w)
  else (Ret tt, World (files w) (cwd w) (<[var_name := value]> (environ w))
                  (programs w) (children w)).

Definition environ_sorted_keys (w : world) : list string :=
  merge_sort String.le (fst <$> map_to_list (environ w)).

Lemma popen_never_times_out command dir w e w' :
  popen command dir w = (Raise e, w') → is_TimeoutExpired e = false.
Proof.
  unfold popen. destruct dir as [d|]; [destruct (isdir d w)|]; intros [= <- <-]; done.
Qed.

End Ref.

Definition ref_os : OS Ref.world := {|
  proc := nat;
  path_exists := Ref.exists_;
  path_isdir := Ref.isdir;
  path_isfile := Ref.isfile;
  path_getsize := Ref.getsize;
  read_text := Ref.read_text;
  write_text := Ref.write_text;
  makedirs := Ref.makedirs;
  listdir := Ref.listdir;
  remove := Ref.remove;
  rmtree := Ref.rmtree;
  copytree := Ref.copytree;
  copy2 := Ref.copy2;
  move := Ref.move;
  stat := Ref.stat;
  path_suffix := Ref.path_suffix;
  path_parent := Ref.path_parent;
  rglob := Ref.rglob;
  getcwd := Ref.getcwd;
  chdir := Ref.chdir;
  popen := Ref.popen;
  communicate := Ref.communicate;
  kill := Ref.kill;
  wait := Ref.wait;
  shlex_split := Ref.shlex_split;
  environ_get := Ref.environ_get;
  environ_set := Ref.environ_set;
  environ_sorted_keys := Ref.environ_sorted_keys;
  popen_never_times_out := Ref.popen_never_times_out;
|}.

(** ** Sample machines *)
Module Sample.

(** A text from its lines, LF between them. *)
Definition text (lines : list string) : string := Py.join Py.NL lines.

Definition numbered (n : nat) : list string :=
  (λ k, "line " +:+ Py.str (Z.of_nat k)) <$> seq 1 n.

Definition machine : Ref.world :=
  Ref.World
    (list_to_map
       [("docs", Ref.Dir);
        ("docs/repeat.md", Ref.File (text ["# A"; "# B"; "# A"]) true);
        ("docs/intro.md", Ref.File (text ["intro"; "# A"; "body"]) true);
        ("docs/blank.md", Ref.File (text ["#  "; "# A"; "body"]) true);
        ("docs/five.md", Ref.File (text (numbered 5 ++ [""])) true);
        ("docs/long.md", Ref.File (text (numbered 25 ++ [""])) true);
        ("docs/mac.txt", Ref.File (String "a" (String Py.CR (String "b" ""))) true);
        ("docs/photo.bin",
         Ref.Binary (String (ascii_of_nat 255) (String (ascii_of_nat 216) ""))
           "'utf-8' codec can't decode byte 0xff in position 0: invalid start byte")])
    "/"
    (list_to_map [("HOME", "/home/user"); ("USER", "user")])
    (list_to_map [("sleep 60", Ref.Hangs); ("which vim", Ref.Hangs);
                  ("exec sudo sleep 60", Ref.Unkillable)])
    [].

End Sample.

(** ** How a tool treats the path it is given *)
Section Preconditions.
Context {W : Type} (os : OS W).

(** [t] tests whether its path exists before anything else: for a path
    that does not exist it returns [message] and has called nothing that
    could change the machine. *)
Definition checks_existence (t : string → M W string) (message : string → string) : Prop :=
  ∀ p w, path_exists os p w = false → t p w = (Ret (message p), w).

(** [t] tests next whether an existing path is a directory. *)
Definition checks_directory (t : string → M W string) (message : string → string) : Prop :=
  ∀ p w, path_exists os p w = true → path_isdir os p w = false →
         t p w = (Ret (message p), w).

(** [t] hands its path to the call [f] untested: whenever [f] raises an
    exception under [Exception], [t] returns the string its blanket handler
    makes of it. *)
Definition relies_on_call {A} (t : M W string) (f : M W A) (prefix : string) : Prop :=
  ∀ w e w', f w = (Raise e, w') → is_Exception e = true →
            t w = (Ret (prefix +:+ ": " +:+ exn_str e), w').

End Preconditions.

(** The stored characters of a file hold no CR. *)
Fixpoint no_CR (data : string) : bool :=
  match data with
  | EmptyString => true
  | String c data' => negb (bool_decide (c = Py.CR)) && no_CR data'
  end.

(** ** Substrings *)

(** [needle] occurs in [hay]. *)
Definition substring (needle hay : string) : Prop :=
  ∃ before after, hay = before +:+ needle +:+ after.

(** A section that lookup by name may return for the query [q]: its name is
    not empty and contains [q], both in lower case. *)
Definition answers (q : string) (s : section_info * string) : Prop :=
  name s.1 ≠ EmptyString ∧ substring (Py.lower q) (Py.lower (name s.1)).

(** ** What the section loop records *)
(** The dictionary the loop builds at a line of [lines]: none unless the
    line is a header, and then its title stripped, the number of its hashes,
    and one more than the position of the first line equal to it. *)
Definition header_info (lines : list string) (ln : string) : option section_info :=
  match HeaderRe.header_match ln with
  | Some (hashes, title) =>
      (λ i : nat, Section_info (Py.strip title) hashes (Z.of_nat i + 1)) <$> Py.index lines ln
  | None => None
  end.

(** ** The tool that is defined but not registered *)
Section UnregisteredTools.
Context {W : Type} (os : OS W).

(** paper_tools.py, read_markdown_file (commented out of PAPER_TOOLS) *)
Definition read_markdown_file_try (file_path : string) : M W string :=
  ex <- observe (path_exists os file_path) ;;
  if negb ex then ret (missing_file file_path) else
  if negb (Py.endswith (Py.lower file_path) ".md")
  then ret ("Warning: File " +:+ Py.quoted file_path +:+ " is not a markdown file (.md)")
  else
  content <- read_text os file_path ;;
  let file_info := "=== File: " +:+ file_path +:+ " ===" +:+ Py.NL in
  let file_info := file_info +:+ "Total lines: "
                   +:+ Py.str (Z.of_nat (length (Py.splitlines content))) +:+ Py.NL in
  let file_info := file_info +:+ "File size: " +:+ Py.str (Py.len content)
                   +:+ " characters" +:+ Py.NL +:+ Py.NL in
  ret (file_info +:+ content).

Definition read_markdown_file (file_path : string) : M W string :=
  try_except (read_markdown_file_try file_path)
    [except_Exception "Error reading markdown file"].

End UnregisteredTools.

(** ** Vocabulary for the properties of the markdown tools *)

(** The lines [ls] as the line and page tools print them, the first one
    numbered [n]: each line after its number in a field of four and a bar. *)
Fixpoint number_from (n : Z) (ls : list string) : string :=
  match ls with
  | [] => EmptyString
  | ln :: ls' => Py.fmt_4d n +:+ " | " +:+ ln +:+ number_from (n + 1) ls'
  end.

(** The line matches the header pattern. *)
Definition is_header (ln : string) : bool :=
  match HeaderRe.header_match ln with Some _ => true | None => false end.

(** The lines [todo] cut before every header line, [cur] being the lines
    of the piece that is open. *)
Fixpoint pieces (cur todo : list string) : list (list string) :=
  match todo with
  | [] => [cur]
  | ln :: todo' =>
      if is_header ln then cur :: pieces [ln] todo' else pieces (cur ++ [ln]) todo'
  end.

(** The lines from the first header line on. *)
Fixpoint from_first_header (lines : list string) : list string :=
  match lines with
  | [] => []
  | ln :: lines' => if is_header ln then lines else from_first_header lines'
  end.

(** The dictionaries of the header lines of [lines], each with its own
    line number, [k] being the number of lines before [lines]. *)
Fixpoint headers_from (k : nat) (lines : list string) : list section_info :=
  match lines with
  | [] => []
  | ln :: lines' =>
      match HeaderRe.header_match ln with
      | Some (hashes, title) =>
          Section_info (Py.strip title) hashes (Z.of_nat k + 1) :: headers_from (S k) lines'
      | None => headers_from (S k) lines'
      end
  end.

(** [k] hashes, and a string of whitespace only. *)
Definition hashes (k : nat) : string := Py.repeat_str "#" (Z.of_nat k).

Fixpoint all_space (s : string) : bool :=
  match s with
  | EmptyString => true
  | String c s' => Py.isspace c && all_space s'
  end.

(** What execute_command and execute_command_with_cwd report of a child
    that has ended. *)
Definition report (r : completed) : string :=
  (if truthy (stdout r) || truthy (stderr r)
   then (if truthy (stdout r) then "STDOUT:" +:+ Py.NL +:+ stdout r else EmptyString)
        +:+ (if truthy (stderr r) then Py.NL +:+ "STDERR:" +:+ Py.NL +:+ stderr r
             else EmptyString)
   else "Command executed successfully with no output")
  +:+ Py.NL +:+ Py.NL +:+ "Exit code: " +:+ Py.str (returncode r).

(** A piece: a header line and then lines that are not headers. *)
Definition headed (piece : list string) : Prop :=
  ∃ h rest, piece = h :: rest ∧ is_header h = true ∧
            Forall (λ ln, is_header ln = false) rest.

(** A machine whose only file is empty. *)
Definition machine_with_empty_file : Ref.world :=
  Ref.World (list_to_map [("docs", Ref.Dir); ("docs/empty.md", Ref.File "" true)])
    "/" ∅ ∅ [].

(** The entries of the page overview of read_markdown_pages for [n] pages
    from page [i] on: each page with its first and last line. *)
Fixpoint page_entries (n : nat) (i lines_per_page total_lines : Z) : string :=
  match n with
  | O => EmptyString
  | S n' =>
      "Page " +:+ Py.str i +:+ ": Lines " +:+ Py.str ((i - 1) * lines_per_page + 1)
      +:+ "-" +:+ Py.str (Z.min (i * lines_per_page) total_lines) +:+ Py.NL
      +:+ page_entries n' (i + 1) lines_per_page total_lines
  end.

(** The lines [ls] as search_markdown_content prints a context, the first
    one numbered [n]: numbered as by [number_from], the line numbered [hit]
    after the marker [>>> ] and every other line after four spaces. *)
Fixpoint marked_from (n hit : Z) (ls : list string) : string :=
  match ls with
  | [] => EmptyString
  | ln :: ls' =>
      (if bool_decide (n = hit) then ">>> " else "    ")
      +:+ Py.fmt_4d n +:+ " | " +:+ ln +:+ marked_from (n + 1) hit ls'
  end.

(** The context of line [n] (counted from 1) with [c] context lines: the
    lines [max(1, n - c)] to [min(total, n + c)], line [n] marked. *)
Definition context_of (lines : list string) (c n : Z) : string :=
  let first := Z.max 1 (n - c) in
  let last := Z.min (Z.of_nat (length lines)) (n + c) in
  marked_from first n (Py.slice lines (first - 1) last).

(** The matches as search_markdown_content prints them, the first one
    numbered [k]: a line that names the match and its line, the context, and
    an empty line. *)
Fixpoint matches_from (k : Z) (matches : list (Z * string)) : string :=
  match matches with
  | [] => EmptyString
  | (line_num, context) :: rest =>
      "Match " +:+ Py.str k +:+ " (Line " +:+ Py.str line_num +:+ "):" +:+ Py.NL
      +:+ context +:+ Py.NL +:+ matches_from (k + 1) rest
  end.

(** * Properties *)

(** ** The monad *)

Lemma try_except_blanket {W} (body : M W string) (prefix : string) (w : W) :
  try_except body [except_Exception prefix] w =
  match body w with
  | (Ret s, w') => (Ret s, w')
  | (Raise e, w') =>
      if is_Exception e then (Ret (prefix +:+ ": " +:+ exn_str e), w') else (Raise e, w')
  end.
Proof.
  unfold try_except. destruct (body w) as [[s|e] w']; [done|].
  simpl. by destruct (is_Exception e).
Qed.

Lemma try_except_timeout {W} (body : M W string) (message prefix : string) (w : W) :
  try_except body
    [Except is_TimeoutExpired (λ _, ret message); except_Exception prefix] w =
  match body w with
  | (Ret s, w') => (Ret s, w')
  | (Raise e, w') =>
      if is_TimeoutExpired e then (Ret message, w')
      else if is_Exception e then (Ret (prefix +:+ ": " +:+ exn_str e), w')
      else (Raise e, w')
  end.
Proof.
  unfold try_except. destruct (body w) as [[s|e] w']; [done|].
  simpl. destruct (is_TimeoutExpired e); [done|]. by destruct (is_Exception e).
Qed.


Lemma bind_ret_l {W A B} (m : M W A) (k : A → M W B) (w w' : W) (a : A) :
  m w = (Ret a, w') → bind m k w = k a w'.
Proof. unfold bind. by intros ->. Qed.

Lemma bind_raise {W A B} (m : M W A) (k : A → M W B) (w w' : W) (e : exn) :
  m w = (Raise e, w') → bind m k w = (Raise e, w').
Proof. unfold bind. by intros ->. Qed.

Lemma bind_lift_ret {W A B} (a : A) (k : A → M W B) (w : W) :
  bind (lift (Ret a)) k w = k a w.
Proof. reflexivity. Qed.

Lemma bind_lift_raise {W A B} (e : exn) (k : A → M W B) (w : W) :
  bind (lift (Raise e)) k w = (Raise e, w).
Proof. reflexivity. Qed.

(** ** Every tool turns exceptions into strings *)






(** ** Timeouts of the command tools *)





(** ** Preconditions on paths *)

Ltac precondition :=
  intros;
  rewrite ?try_except_blanket, ?try_except_timeout;
  repeat (unfold bind at 1, observe; simpl);
  repeat match goal with
         | H : _ = _ |- _ => rewrite H; simpl
         end;
  try reflexivity.

(** C7, as the code has it.  list_directory, delete_file_or_path,
    copy_file_or_path, move_file_or_path, get_file_info, search_files,
    execute_command_with_cwd and the four markdown tools test first that
    their path exists, and list_directory, search_files and
    execute_command_with_cwd then that it is a directory; a failed test
    returns its own message and nothing else is called.  read_file,
    write_file, create_directory and change_working_directory test nothing:
    they make the call and the blanket handler reports what it raises. *)
Theorem path_preconditions {W} (os : OS W) :
  (checks_existence os (list_directory os)
     (λ p, "Directory " +:+ Py.quoted p +:+ " does not exist") ∧
   checks_existence os (delete_file_or_path os)
     (λ p, "Path " +:+ Py.quoted p +:+ " does not exist") ∧
   (∀ dst, checks_existence os (λ src, copy_file_or_path os src dst)
     (λ p, "Source path " +:+ Py.quoted p +:+ " does not exist")) ∧
   (∀ dst, checks_existence os (λ src, move_file_or_path os src dst)
     (λ p, "Source path " +:+ Py.quoted p +:+ " does not exist")) ∧
   checks_existence os (get_file_info os)
     (λ p, "Path " +:+ Py.quoted p +:+ " does not exist") ∧
   (∀ pattern, checks_existence os (λ d, search_files os d pattern)
     (λ p, "Directory " +:+ Py.quoted p +:+ " does not exist")) ∧
   (∀ command, checks_existence os (execute_command_with_cwd os command)
     (λ p, "Working directory " +:+ Py.quoted p +:+ " does not exist")) ∧
   (∀ a b, checks_existence os (λ p, read_markdown_lines os p a b) missing_file) ∧
   (∀ n k, checks_existence os (λ p, read_markdown_pages os p n k) missing_file) ∧
   (∀ n, checks_existence os (λ p, read_markdown_sections os p n) missing_file) ∧
   (∀ t k, checks_existence os (λ p, search_markdown_content os p t k) missing_file)) ∧
  (checks_directory os (list_directory os)
     (λ p, Py.quoted p +:+ " is not a directory") ∧
   (∀ pattern, checks_directory os (λ d, search_files os d pattern)
     (λ p, Py.quoted p +:+ " is not a directory")) ∧
   (∀ command, checks_directory os (execute_command_with_cwd os command)
     (λ p, Py.quoted p +:+ " is not a directory"))) ∧
  ((∀ p, relies_on_call (read_file os p) (read_text os p) "Error reading file") ∧
   (∀ p content, relies_on_call (write_file os p content) (makedirs os (Py.dirname p))
      "Error writing file") ∧
   (∀ d, relies_on_call (create_directory os d) (makedirs os d)
      "Error creating directory") ∧
   (∀ d, relies_on_call (change_working_directory os d) (chdir os d)
      "Error changing directory")).
Proof.
  split; [|split].
  - unfold checks_existence, list_directory, delete_file_or_path, copy_file_or_path,
      move_file_or_path, get_file_info, search_files, execute_command_with_cwd,
      read_markdown_lines, read_markdown_pages, read_markdown_sections,
      search_markdown_content,
      list_directory_try, delete_file_or_path_try, copy_file_or_path_try,
      move_file_or_path_try, get_file_info_try, search_files_try,
      execute_command_with_cwd_try, read_markdown_lines_try, read_markdown_pages_try,
      read_markdown_sections_try, search_markdown_content_try.
    repeat split; precondition.
  - unfold checks_directory, list_directory, search_files, execute_command_with_cwd,
      list_directory_try, search_files_try, execute_command_with_cwd_try.
    repeat split; precondition.
  - unfold relies_on_call, read_file, write_file, create_directory,
      change_working_directory, read_file_try, write_file_try, create_directory_try,
      change_working_directory_try.
    repeat split; precondition.
Qed.

Lemma path_preconditions_witness :
  list_directory ref_os "nowhere" Sample.machine
    = (Ret "Directory 'nowhere' does not exist", Sample.machine) ∧
  list_directory ref_os "docs/five.md" Sample.machine
    = (Ret "'docs/five.md' is not a directory", Sample.machine) ∧
  read_file ref_os "nowhere" Sample.machine
    = (Ret "Error reading file: [Errno 2] No such file or directory: 'nowhere'",
       Sample.machine).
Proof.
  destruct (path_preconditions ref_os) as ((H1 & _) & (H2 & _) & (H3 & _)).
  split; [|split].
  - apply (H1 "nowhere" Sample.machine). reflexivity.
  - apply (H2 "docs/five.md" Sample.machine); reflexivity.
  - apply (H3 "nowhere" Sample.machine (Ref.no_such_file "nowhere") Sample.machine);
      reflexivity.
Defined.

(** C7 as stated fails for read_file: given a path that does not exist it
    makes no test of its own; it calls [open], and the string it returns
    carries the message of the exception that call raised. *)
Lemma read_file_tests_nothing :
  path_exists ref_os "nowhere.txt" Sample.machine = false ∧
  ∃ e, read_text ref_os "nowhere.txt" Sample.machine = (Raise e, Sample.machine) ∧
       read_file ref_os "nowhere.txt" Sample.machine
         = (Ret ("Error reading file: " +:+ exn_str e), Sample.machine) ∧
       exn_str e = "[Errno 2] No such file or directory: 'nowhere.txt'".
Proof.
  split; [reflexivity|].
  exists (Ref.no_such_file "nowhere.txt"). repeat split; reflexivity.
Qed.

(** ** Reading a file and writing it back *)


Lemma universal_newlines_id (s : string) :
  no_CR s = true → Ref.universal_newlines s = s.
Proof.
  induction s as [|c s IH]; [done|].
  simpl. case_bool_decide; [done|]. simpl. intros Hs. by rewrite IH.
Qed.








(** ** Substring search *)

Lemma app_cons (c : ascii) (s t : string) : String c s +:+ t = String c (s +:+ t).
Proof. reflexivity. Qed.

Lemma string_app_assoc (a b c : string) : (a +:+ b) +:+ c = a +:+ (b +:+ c).
Proof. induction a as [|x a IH]; [done|]. by rewrite !app_cons, IH. Qed.

Lemma string_app_nil_r (a : string) : a +:+ EmptyString = a.
Proof. induction a as [|x a IH]; [done|]. by rewrite app_cons, IH. Qed.

Lemma number_from_fold (first k : Z) (ls : list string) (acc : string) :
  fold_left (λ result '(i, ln), result +:+ Py.fmt_4d (first + i) +:+ " | " +:+ ln)
    (Py.enumerate k ls) acc
  = acc +:+ number_from (first + k) ls.
Proof.
  revert k acc. induction ls as [|ln ls IH]; intros k acc; simpl.
  - by rewrite string_app_nil_r.
  - rewrite IH, !string_app_assoc. by rewrite Z.add_assoc.
Qed.

Lemma startswith_spec (hay needle : string) :
  Py.startswith hay needle = true ↔ ∃ after, hay = needle +:+ after.
Proof.
  revert hay. induction needle as [|a needle IH]; intros hay; simpl.
  - split; [intros _; by exists hay|done].
  - destruct hay as [|b hay].
    + split; [done|]. intros [after H]. discriminate H.
    + destruct (ascii_dec a b) as [->|Hne].
      * rewrite IH. split; intros [after H]; exists after.
        -- by rewrite app_cons, H.
        -- rewrite app_cons in H. by injection H.
      * split; [done|]. intros [after H]. rewrite app_cons in H. congruence.
Qed.

Lemma contains_unfold (hay needle : string) :
  Py.contains hay needle =
  Py.startswith hay needle ||
  match hay with EmptyString => false | String _ h => Py.contains h needle end.
Proof. by destruct hay. Qed.

Lemma contains_spec (hay needle : string) :
  Py.contains hay needle = true ↔ substring needle hay.
Proof.
  unfold substring. induction hay as [|c hay IH]; rewrite contains_unfold.
  - rewrite orb_false_r, startswith_spec. split.
    + intros [after H]. by exists EmptyString, after.
    + intros ([|c before] & after & H); [by exists after|discriminate H].
  - rewrite orb_true_iff, startswith_spec, IH. split.
    + intros [[after H]|(before & after & H)].
      * by exists EmptyString, after.
      * exists (String c before), after. by rewrite app_cons, H.
    + intros ([|c' before] & after & H).
      * left. by exists after.
      * right. rewrite app_cons in H. injection H as _ H. by exists before, after.
Qed.

(** ** search_markdown_content *)

Section Search.
Context (lines : list string) (search_term : string) (context_lines : Z).

Let step (matches : list (Z * string)) (item : Z * string) : list (Z * string) :=
  let '(i, ln) := item in
  if Py.contains (Py.lower ln) (Py.lower search_term)
  then matches ++ [(i + 1, context_text lines context_lines i)]
  else matches.

Lemma search_fold_acc (todo : list (Z * string)) (acc : list (Z * string)) :
  fold_left step todo acc = acc ++ fold_left step todo [].
Proof.
  revert acc. induction todo as [|[i ln] todo IH]; intros acc; simpl.
  - by rewrite app_nil_r.
  - destruct (Py.contains _ _); [|done].
    rewrite (IH (acc ++ _)), (IH [_]). by rewrite app_assoc.
Qed.

Lemma search_fold_numbers (todo : list string) (k n : Z) :
  n ∈ (fold_left step (Py.enumerate k todo) []).*1 ↔
  ∃ (i : nat) ln, todo !! i = Some ln ∧ n = k + Z.of_nat i + 1 ∧
                  substring (Py.lower search_term) (Py.lower ln).
Proof.
  revert k. induction todo as [|l todo IH]; intros k; simpl.
  - split; [by intros ?%elem_of_nil|by intros (i & ln & ? & _)].
  - rewrite search_fold_acc, fmap_app, elem_of_app, IH.
    destruct (Py.contains (Py.lower l) (Py.lower search_term)) eqn:Hl; simpl.
    + apply contains_spec in Hl. rewrite list_elem_of_singleton. split.
      * intros [->|(i & ln & Hi & -> & Hs)].
        -- exists 0%nat, l. split; [done|]. split; [lia|done].
        -- exists (S i), ln. split; [done|]. split; [lia|done].
      * intros ([|i] & ln & Hi & -> & Hs); simpl in Hi.
        -- left. lia.
        -- right. exists i, ln. split; [done|]. split; [lia|done].
    + assert (¬ substring (Py.lower search_term) (Py.lower l)) as Hno.
      { rewrite <- contains_spec. by rewrite Hl. }
      split.
      * intros [[]%elem_of_nil|(i & ln & Hi & -> & Hs)].
        exists (S i), ln. split; [done|]. split; [lia|done].
      * intros ([|i] & ln & Hi & -> & Hs); simpl in Hi.
        -- by simplify_eq.
        -- right. exists i, ln. split; [done|]. split; [lia|done].
Qed.

Lemma search_fold_contexts (todo : list string) (k : Z) :
  Forall (λ m, m.2 = context_text lines context_lines (m.1 - 1))
    (fold_left step (Py.enumerate k todo) []).
Proof.
  revert k. induction todo as [|l todo IH]; intros k; simpl; [constructor|].
  destruct (Py.contains (Py.lower l) (Py.lower search_term)); [|apply IH].
  rewrite search_fold_acc. apply Forall_app. split; [|apply IH].
  apply Forall_singleton. simpl. f_equal. lia.
Qed.

End Search.

Lemma marked_from_fold (start hit k : Z) (ls : list string) (acc : string) :
  fold_left (λ text '(j, ctx_line),
    let line_num := start + j + 1 in
    let marker := if bool_decide (j = hit - start) then ">>> " else "    " in
    text +:+ marker +:+ Py.fmt_4d line_num +:+ " | " +:+ ctx_line)
    (Py.enumerate k ls) acc
  = acc +:+ marked_from (start + k + 1) (hit + 1) ls.
Proof.
  revert k acc. induction ls as [|ln ls IH]; intros k acc; simpl.
  - by rewrite string_app_nil_r.
  - rewrite IH, !string_app_assoc.
    rewrite (bool_decide_ext (k = hit - start) (start + k + 1 = hit + 1)) by lia.
    by replace (start + (k + 1) + 1) with (start + k + 1 + 1) by lia.
Qed.

(** The context the loop renders for the line at index [i] is the context
    of line [i + 1]. *)
Lemma context_text_marked (lines : list string) (context_lines i : Z) :
  context_text lines context_lines i = context_of lines context_lines (i + 1).
Proof.
  unfold context_text, context_of.
  etrans; [exact (marked_from_fold _ i 0 _ EmptyString)|].
  change (EmptyString +:+ ?x) with x.
  replace (0 `max` (i - context_lines) + 0 + 1)
    with (1 `max` (i + 1 - context_lines)) by lia.
  replace (0 `max` (i - context_lines))
    with (1 `max` (i + 1 - context_lines) - 1) by lia.
  by replace (i + context_lines + 1) with (i + 1 + context_lines) by lia.
Qed.

Lemma matches_from_fold (k : Z) (matches : list (Z * string)) (acc : string) :
  fold_left (λ result '(i, (line_num, context)),
    result +:+ "Match " +:+ Py.str i +:+ " (Line " +:+ Py.str line_num +:+ "):"
           +:+ Py.NL +:+ context +:+ Py.NL)
    (Py.enumerate k matches) acc
  = acc +:+ matches_from k matches.
Proof.
  revert k acc. induction matches as [|[n ctx] matches IH]; intros k acc; simpl.
  - by rewrite string_app_nil_r.
  - by rewrite IH, !string_app_assoc.
Qed.

(** C10.  search_markdown_content lists line [n] (counted from 1) among its
    matches exactly when the search term in lower case occurs in that line
    in lower case, and each match carries the context of its line.  When no
    line of the file is such a line the tool returns the string
    ["No matches found for '<term>' in <path>"]; when there is one it
    returns the header, the number of matches and then every match in turn,
    numbered from 1, with its line number and its context. *)
Theorem search_is_case_insensitive (search_term : string) (context_lines : Z) :
  (∀ (lines : list string) (n : Z),
     n ∈ (search_matches lines search_term context_lines).*1 ↔
     ∃ (i : nat) ln, lines !! i = Some ln ∧ n = Z.of_nat i + 1 ∧
                     substring (Py.lower search_term) (Py.lower ln)) ∧
  (∀ (lines : list string) (n : Z) (context : string),
     (n, context) ∈ search_matches lines search_term context_lines →
     context = context_of lines context_lines n) ∧
  (∀ W (os : OS W) (file_path content : string) (w w' : W),
     path_exists os file_path w = true →
     read_text os file_path w = (Ret content, w') →
     let lines := Py.readlines content in
     let matches := search_matches lines search_term context_lines in
     ((∀ ln, ln ∈ lines → ¬ substring (Py.lower search_term) (Py.lower ln)) →
      search_markdown_content os file_path search_term context_lines w =
        (Ret ("No matches found for " +:+ Py.quoted search_term +:+ " in " +:+ file_path),
         w')) ∧
     ((∃ ln, ln ∈ lines ∧ substring (Py.lower search_term) (Py.lower ln)) →
      search_markdown_content os file_path search_term context_lines w =
        (Ret ("=== Search Results for " +:+ Py.quoted search_term +:+ " in "
              +:+ file_path +:+ " ===" +:+ Py.NL
              +:+ "Found " +:+ Py.str (Z.of_nat (length matches)) +:+ " match"
              +:+ (if bool_decide (length matches = 1%nat) then "" else "es")
              +:+ Py.NL +:+ Py.NL
              +:+ matches_from 1 matches),
         w'))).
Proof.
  assert (Hnumbers : ∀ (lines : list string) (n : Z),
     n ∈ (search_matches lines search_term context_lines).*1 ↔
     ∃ (i : nat) ln, lines !! i = Some ln ∧ n = Z.of_nat i + 1 ∧
                     substring (Py.lower search_term) (Py.lower ln)).
  { intros lines n. unfold search_matches.
    rewrite (search_fold_numbers lines search_term context_lines lines 0 n).
    split; intros (i & ln & Hi & -> & Hs); exists i, ln; (split; [done|]);
      split; try done; lia. }
  split; [exact Hnumbers|]. split.
  - intros lines n context Hin.
    pose proof (search_fold_contexts lines search_term context_lines lines 0) as Hall.
    rewrite Forall_forall in Hall. specialize (Hall _ Hin). simpl in Hall.
    rewrite Hall, context_text_marked. f_equal. lia.
  - intros W os file_path content w w' Hex Hread lines matches.
    assert (Htool : search_markdown_content os file_path search_term context_lines w =
      (Ret (if nonempty matches
            then fold_left (λ result '(i, (line_num, context)),
                   result +:+ "Match " +:+ Py.str i +:+ " (Line " +:+ Py.str line_num
                          +:+ "):" +:+ Py.NL +:+ context +:+ Py.NL)
                   (Py.enumerate 1 matches)
                   (("=== Search Results for " +:+ Py.quoted search_term +:+ " in "
                     +:+ file_path +:+ " ===" +:+ Py.NL)
                    +:+ "Found " +:+ Py.str (Z.of_nat (length matches)) +:+ " match"
                    +:+ (if bool_decide (Z.of_nat (length matches) ≠ 1) then "es" else "")
                    +:+ Py.NL +:+ Py.NL)
            else "No matches found for " +:+ Py.quoted search_term +:+ " in " +:+ file_path),
       w')).
    { unfold search_markdown_content. rewrite try_except_blanket.
      unfold search_markdown_content_try, bind at 1, observe. rewrite Hex. simpl.
      unfold bind at 1, read_lines, bind at 1. rewrite Hread. simpl.
      fold lines. fold matches. by destruct (nonempty matches). }
    rewrite Htool. split.
    + intros Hnone. destruct matches as [|[n ctx] rest] eqn:Hm; [done|]. exfalso.
      assert (n ∈ (search_matches lines search_term context_lines).*1) as Hn.
      { fold matches. rewrite Hm. simpl. left. }
      apply Hnumbers in Hn as (i & ln & Hi & _ & Hs).
      apply (Hnone ln); [|done]. by eapply list_elem_of_lookup_2.
    + intros (ln & Hln & Hs).
      apply list_elem_of_lookup_1 in Hln as [i Hi].
      assert (Z.of_nat i + 1 ∈ matches.*1) as Hin.
      { apply Hnumbers. by exists i, ln. }
      assert (nonempty matches = true) as ->.
      { destruct matches; [by apply elem_of_nil in Hin|done]. }
      rewrite matches_from_fold, !string_app_assoc.
      do 5 f_equal. case_bool_decide; case_bool_decide; try done; lia.
Qed.

Lemma search_is_case_insensitive_witness :
  search_markdown_content ref_os "docs/five.md" "Absent" 3 Sample.machine =
    (Ret "No matches found for 'Absent' in docs/five.md", Sample.machine) ∧
  search_markdown_content ref_os "docs/repeat.md" "a" 0 Sample.machine =
    (Ret ("=== Search Results for 'a' in docs/repeat.md ===" +:+ Py.NL
          +:+ "Found 2 matches" +:+ Py.NL +:+ Py.NL
          +:+ "Match 1 (Line 1):" +:+ Py.NL
          +:+ ">>>    1 | # A" +:+ Py.NL +:+ Py.NL
          +:+ "Match 2 (Line 3):" +:+ Py.NL
          +:+ ">>>    3 | # A" +:+ Py.NL), Sample.machine).
Proof.
  split.
  - destruct (search_is_case_insensitive "Absent" 3) as (_ & _ & H).
    apply (H _ ref_os "docs/five.md" (Sample.text (Sample.numbered 5 ++ [""]))).
    + reflexivity.
    + reflexivity.
    + intros ln Hln Hs. apply contains_spec in Hs.
      vm_compute in Hln.
      repeat (apply elem_of_cons in Hln as [->|Hln]; [vm_compute in Hs; discriminate Hs|]).
      by apply elem_of_nil in Hln.
  - destruct (search_is_case_insensitive "a" 0) as (_ & _ & H).
    etrans.
    + apply (H _ ref_os "docs/repeat.md" (Sample.text ["# A"; "# B"; "# A"])).
      * reflexivity.
      * reflexivity.
      * exists "# A". split; [apply list_elem_of_lookup_2 with 2%nat; reflexivity|].
        apply contains_spec. reflexivity.
    + vm_compute. reflexivity.
Defined.

(** ** read_markdown_sections: lookup by name *)

Lemma truthy_spec (s : string) : truthy s = true ↔ s ≠ EmptyString.
Proof. unfold truthy. rewrite negb_true_iff, bool_decide_eq_false. done. Qed.

Lemma answers_dec (q : string) (s : section_info * string) :
  truthy (name s.1) && Py.contains (Py.lower (name s.1)) (Py.lower q) = true ↔ answers q s.
Proof. unfold answers. by rewrite andb_true_iff, truthy_spec, contains_spec. Qed.

Lemma find_section_Some (q : string) (secs : list (section_info * string))
    (found : section_info * string) :
  find_section q secs = Some found ↔
  ∃ before after, secs = before ++ found :: after ∧ answers q found ∧
                  ∀ s, s ∈ before → ¬ answers q s.
Proof.
  induction secs as [|[info content] secs IH]; simpl.
  - split; [done|]. intros (before & after & H & _). by destruct before.
  - destruct (truthy (name info) && _) eqn:Hhere.
    + apply (answers_dec q (info, content)) in Hhere. split.
      * intros [= <-]. exists [], secs. split; [done|]. split; [done|].
        by intros s ?%elem_of_nil.
      * intros ([|first before] & after & H & Hfound & Hnone); simplify_eq/=; [done|].
        destruct (Hnone (info, content)); [left|done].
    + assert (¬ answers q (info, content)) as Hno.
      { rewrite <- answers_dec. simpl. by rewrite Hhere. }
      rewrite IH. split.
      * intros (before & after & -> & Hfound & Hnone).
        exists ((info, content) :: before), after. split; [done|]. split; [done|].
        intros s [->|Hs]%elem_of_cons; auto.
      * intros ([|first before] & after & H & Hfound & Hnone); simplify_eq/=; [done|].
        exists before, after. split; [done|]. split; [done|].
        intros s Hs. apply Hnone. by right.
Qed.

Lemma find_section_None (q : string) (secs : list (section_info * string)) :
  find_section q secs = None ↔ ∀ s, s ∈ secs → ¬ answers q s.
Proof.
  induction secs as [|[info content] secs IH]; simpl.
  - split; [by intros _ s ?%elem_of_nil|done].
  - destruct (truthy (name info) && _) eqn:Hhere.
    + apply (answers_dec q (info, content)) in Hhere. split; [done|].
      intros H. destruct (H (info, content)); [left|done].
    + assert (¬ answers q (info, content)) as Hno.
      { rewrite <- answers_dec. simpl. by rewrite Hhere. }
      rewrite IH. split.
      * intros H s [->|Hs]%elem_of_cons; auto.
      * intros H s Hs. apply H. by right.
Qed.

(** The section loop never raises: every line it looks up with
    [lines.index] is a line of [lines]. *)
Lemma index_is_Some (l : list string) (x : string) : x ∈ l → is_Some (Py.index l x).
Proof.
  induction l as [|y l IH]; [by intros ?%elem_of_nil|].
  simpl. destruct (decide (y = x)); [by eexists|].
  intros [?|Hx]%elem_of_cons; [congruence|].
  destruct (IH Hx) as [i ->]. by eexists.
Qed.

Lemma scan_lines_returns (lines todo : list string) (st : scan) :
  (∀ ln, ln ∈ todo → ln ∈ lines) → ∃ st', scan_lines lines st todo = Ret st'.
Proof.
  revert st. induction todo as [|ln todo IH]; intros st Hsub; simpl; [by eexists|].
  assert (∃ st1, scan_line lines st ln = Ret st1) as [st1 ->].
  { unfold scan_line. destruct (HeaderRe.header_match ln) as [[hashes title]|].
    - destruct (index_is_Some lines ln) as [i ->]; [apply Hsub; left|by eexists].
    - destruct (current_section st); by eexists. }
  apply IH. intros l Hl. apply Hsub. by right.
Qed.

Lemma parse_sections_returns (content : string) : ∃ secs, parse_sections content = Ret secs.
Proof.
  unfold parse_sections.
  destruct (scan_lines_returns (Py.splitlines content) (Py.splitlines content)
              (Scan [] None [])) as [st ->]; [done|by eexists].
Qed.

(** C5, as the code has it.  Lookup by name returns the first section, in
    document order, whose name is not empty and contains the query, both
    taken in lower case; when no section has such a name it returns the
    ["not found"] error string.  A section whose name is empty is never
    returned. *)
Theorem lookup_by_name {W} (os : OS W) (file_path content section_name : string)
    (w w' : W) :
  path_exists os file_path w = true →
  read_text os file_path w = (Ret content, w') →
  ∃ secs, parse_sections content = Ret secs ∧
    ((∃ before found after,
        secs = before ++ found :: after ∧
        answers section_name found ∧
        (∀ s, s ∈ before → ¬ answers section_name s) ∧
        read_markdown_sections os file_path (Some section_name) w
          = (Ret (show_section found), w')) ∨
     ((∀ s, s ∈ secs → ¬ answers section_name s) ∧
      read_markdown_sections os file_path (Some section_name) w
        = (Ret ("Error: Section " +:+ Py.quoted section_name +:+ " not found in file"),
           w'))).
Proof.
  intros Hex Hread.
  destruct (parse_sections_returns content) as [secs Hsecs].
  exists secs. split; [done|].
  unfold read_markdown_sections. rewrite try_except_blanket.
  unfold read_markdown_sections_try, bind, observe, lift, ret.
  rewrite Hex; simpl. rewrite Hread, Hsecs.
  destruct (find_section section_name secs) as [found|] eqn:Hfind.
  - left. apply find_section_Some in Hfind as (before & after & -> & Hfound & Hnone).
    by exists before, found, after.
  - right. split; [|done]. by apply find_section_None.
Qed.

Lemma lookup_by_name_witness :
  ∃ secs, parse_sections (Sample.text ["intro"; "# A"; "body"]) = Ret secs ∧
    ((∃ before found after,
        secs = before ++ found :: after ∧
        answers "a" found ∧
        (∀ s, s ∈ before → ¬ answers "a" s) ∧
        read_markdown_sections ref_os "docs/intro.md" (Some "a") Sample.machine
          = (Ret (show_section found), Sample.machine)) ∨
     ((∀ s, s ∈ secs → ¬ answers "a" s) ∧
      read_markdown_sections ref_os "docs/intro.md" (Some "a") Sample.machine
        = (Ret ("Error: Section " +:+ Py.quoted "a" +:+ " not found in file"),
           Sample.machine))).
Proof.
  apply (lookup_by_name ref_os "docs/intro.md"); reflexivity.
Defined.

(** C5 as stated fails when a header has a blank title.  The first header
    of this file is a hash and two spaces: it matches the header pattern and
    opens a section whose name is empty.  The empty query occurs in that
    name, yet lookup returns the second section. *)
Lemma blank_section_is_skipped :
  parse_sections (Sample.text ["#  "; "# A"; "body"])
    = Ret [(Section_info "" 1 1, "#  ");
           (Section_info "A" 1 2, Sample.text ["# A"; "body"])] ∧
  substring (Py.lower "") (Py.lower (name (Section_info "" 1 1))) ∧
  read_markdown_sections ref_os "docs/blank.md" (Some "") Sample.machine
    = (Ret (show_section (Section_info "A" 1 2, Sample.text ["# A"; "body"])),
       Sample.machine).
Proof.
  split; [reflexivity|]. split; [|reflexivity].
  by exists EmptyString, EmptyString.
Qed.

(** ** Slices and pages *)

Lemma slice_bound_nonneg (n i : Z) : 0 ≤ i → Py.slice_bound n i = Z.min n i.
Proof. intros Hi. unfold Py.slice_bound. destruct (Z.ltb_spec i 0); [lia|done]. Qed.


Lemma slice_nonneg {A} (l : list A) (i j : Z) :
  0 ≤ i → 0 ≤ j →
  Py.slice l i j =
  take (Z.to_nat (Z.min (Z.of_nat (length l)) j) - Z.to_nat i) (drop (Z.to_nat i) l).
Proof.
  intros Hi Hj. unfold Py.slice. rewrite !slice_bound_nonneg by done.
  destruct (Z.le_gt_cases i (Z.of_nat (length l))) as [Hle|Hgt].
  - rewrite (Z.min_r _ i) by done. f_equal. lia.
  - rewrite (Z.min_l _ i) by lia.
    rewrite !drop_ge by lia. by rewrite !take_nil.
Qed.

Lemma total_pages_ceiling (total_lines lines_per_page : Z) :
  1 ≤ lines_per_page →
  ∃ pages, total_pages total_lines lines_per_page = Ret pages ∧
           pages * lines_per_page - lines_per_page < total_lines ≤ pages * lines_per_page.
Proof.
  intros HL. unfold total_pages, floordiv.
  rewrite bool_decide_false by lia. eexists. split; [done|].
  pose proof (Z.div_mod (total_lines + lines_per_page - 1) lines_per_page) as Hdm.
  pose proof (Z.mod_pos_bound (total_lines + lines_per_page - 1) lines_per_page) as Hm.
  lia.
Qed.

Lemma page_lines_take_drop (lines : list string) (p lines_per_page : Z) :
  1 ≤ lines_per_page → 1 ≤ p →
  page_lines lines p lines_per_page =
  take (Z.to_nat (Z.min (p * lines_per_page) (Z.of_nat (length lines)))
        - Z.to_nat ((p - 1) * lines_per_page))
       (drop (Z.to_nat ((p - 1) * lines_per_page)) lines).
Proof.
  intros HL Hp. unfold page_lines, page_start, page_end.
  rewrite slice_nonneg by nia. do 2 f_equal. lia.
Qed.

Lemma pages_upto (lines : list string) (lines_per_page : Z) (k : nat) :
  1 ≤ lines_per_page →
  concat ((λ p, page_lines lines p lines_per_page) <$> Py.range 1 (Z.of_nat k + 1)) =
  take (k * Z.to_nat lines_per_page) lines.
Proof.
  intros HL. unfold Py.range.
  replace (Z.to_nat (Z.of_nat k + 1 - 1)) with k by lia.
  induction k as [|k IH]; [done|].
  rewrite seq_S, !fmap_app, concat_app, IH. simpl. rewrite app_nil_r.
  rewrite page_lines_take_drop by lia.
  replace (Z.to_nat ((1 + Z.of_nat k - 1) * lines_per_page))
    with (k * Z.to_nat lines_per_page)%nat by lia.
  rewrite take_take_drop.
  destruct (Z.le_gt_cases ((1 + Z.of_nat k) * lines_per_page) (Z.of_nat (length lines))).
  - f_equal. nia.
  - rewrite Z.min_r by lia. rewrite Nat2Z.id.
    rewrite !take_ge; [done|nia|lia].
Qed.

Lemma page_lines_cover (lines : list string) (lines_per_page pages p : Z) :
  1 ≤ lines_per_page →
  let total_lines := Z.of_nat (length lines) in
  pages * lines_per_page - lines_per_page < total_lines ≤ pages * lines_per_page →
  1 ≤ p ≤ pages →
  let first := (p - 1) * lines_per_page + 1 in
  let last := Z.min (p * lines_per_page) total_lines in
  first ≤ last ∧
  Z.of_nat (length (page_lines lines p lines_per_page)) = last - first + 1 ∧
  ∀ i : nat, (i < length (page_lines lines p lines_per_page))%nat →
    page_lines lines p lines_per_page !! i = lines !! (Z.to_nat (first - 1) + i)%nat.
Proof.
  intros HL total_lines Hceil Hp first last. subst first last.
  assert ((p - 1) * lines_per_page < total_lines) as Hlt by nia.
  split; [nia|].
  rewrite page_lines_take_drop by lia.
  rewrite length_take, length_drop. split; [subst total_lines; nia|].
  intros i Hi. rewrite lookup_take_lt by lia.
  rewrite lookup_drop. f_equal. lia.
Qed.

Lemma page_entries_fold (lines_per_page total_lines : Z) (n : nat) (i : Z) (acc : string) :
  fold_left (λ result i,
    let start_line := (i - 1) * lines_per_page + 1 in
    let end_line := Z.min (i * lines_per_page) total_lines in
    result +:+ "Page " +:+ Py.str i +:+ ": Lines " +:+ Py.str start_line
           +:+ "-" +:+ Py.str end_line +:+ Py.NL)
    ((λ k : nat, i + Z.of_nat k) <$> seq 0 n) acc
  = acc +:+ page_entries n i lines_per_page total_lines.
Proof.
  revert i acc. induction n as [|n IH]; intros i acc.
  - simpl. by rewrite string_app_nil_r.
  - rewrite <- cons_seq, <- fmap_S_seq, fmap_cons, <- list_fmap_compose.
    rewrite (list_fmap_ext _ (λ k : nat, (i + 1) + Z.of_nat k) (seq 0 n))
      by (intros; simpl; lia).
    cbn [fold_left page_entries]. rewrite IH, !string_app_assoc.
    by rewrite Z.add_0_r.
Qed.

Lemma number_from_app (n : Z) (a b : list string) :
  number_from n (a ++ b) = number_from n a +:+ number_from (n + Z.of_nat (length a)) b.
Proof.
  revert n. induction a as [|ln a IH]; intros n.
  - simpl. by rewrite Z.add_0_r.
  - cbn [app number_from length]. rewrite IH, !string_app_assoc.
    by replace (n + 1 + Z.of_nat (length a)) with (n + Z.of_nat (S (length a))) by lia.
Qed.

Lemma page_bodies_upto (lines : list string) (lines_per_page : Z) (k : nat) :
  1 ≤ lines_per_page →
  foldr (λ p rest,
    number_from ((p - 1) * lines_per_page + 1) (page_lines lines p lines_per_page) +:+ rest)
    EmptyString (Py.range 1 (Z.of_nat k + 1))
  = number_from 1 (take (k * Z.to_nat lines_per_page) lines).
Proof.
  intros HL. unfold Py.range.
  replace (Z.to_nat (Z.of_nat k + 1 - 1)) with k by lia.
  induction k as [|k IH]; [done|].
  rewrite seq_S, fmap_app, foldr_app. simpl.
  assert (∀ (l : list Z) (tail : string),
    foldr (λ p rest,
      number_from ((p - 1) * lines_per_page + 1) (page_lines lines p lines_per_page)
      +:+ rest) tail l
    = foldr (λ p rest,
        number_from ((p - 1) * lines_per_page + 1) (page_lines lines p lines_per_page)
        +:+ rest) EmptyString l +:+ tail) as Htail.
  { induction l as [|x l IHl]; intros tail; simpl; [done|].
    by rewrite IHl, string_app_assoc. }
  rewrite Htail, IH, string_app_nil_r.
  rewrite page_lines_take_drop by lia.
  replace (Z.to_nat ((1 + Z.of_nat k - 1) * lines_per_page))
    with (k * Z.to_nat lines_per_page)%nat by lia.
  destruct (Z.le_gt_cases (Z.of_nat k * lines_per_page) (Z.of_nat (length lines)))
    as [Hle|Hgt].
  - replace ((1 + Z.of_nat k - 1) * lines_per_page + 1)
      with (1 + Z.of_nat (length (take (k * Z.to_nat lines_per_page) lines)))
      by (rewrite length_take; nia).
    rewrite <- number_from_app, take_take_drop. f_equal.
    destruct (Z.le_gt_cases ((1 + Z.of_nat k) * lines_per_page) (Z.of_nat (length lines))).
    + f_equal. nia.
    + rewrite Z.min_r by lia. rewrite Nat2Z.id.
      rewrite !take_ge; [done|nia|lia].
  - rewrite drop_ge by nia. rewrite take_nil. simpl. rewrite string_app_nil_r.
    rewrite !take_ge; [done|nia|nia].
Qed.

(** C3.  For a readable file and a page size of at least 1,
    read_markdown_pages works with [total_pages], the ceiling of
    [total_lines / lines_per_page].  Asked for no page, it returns the
    overview: the numbers of lines and pages and one entry for each of the
    pages 1 to [total_pages], with its first and last line.  Asked for page
    [p] of these, it returns the header of the page and the lines
    [(p-1)*lines_per_page + 1] to [min(p*lines_per_page, total_lines)], of
    which there is at least one, each with its number.  The pages 1 to
    [total_pages], one after the other, are the lines of the file, and what
    the tool prints of them, page after page, is the file with its lines
    numbered from 1. *)
Theorem pages_partition_the_lines {W} (os : OS W) (file_path content : string)
    (w w' : W) (lines_per_page : Z) :
  path_exists os file_path w = true →
  read_text os file_path w = (Ret content, w') →
  1 ≤ lines_per_page →
  let lines := Py.readlines content in
  let total_lines := Z.of_nat (length lines) in
  ∃ pages,
    total_pages total_lines lines_per_page = Ret pages ∧
    pages * lines_per_page - lines_per_page < total_lines ≤ pages * lines_per_page ∧
    read_markdown_pages os file_path None lines_per_page w =
      (Ret ("=== File: " +:+ file_path +:+ " ===" +:+ Py.NL
            +:+ "Total lines: " +:+ Py.str total_lines +:+ Py.NL
            +:+ "Lines per page: " +:+ Py.str lines_per_page +:+ Py.NL
            +:+ "Total pages: " +:+ Py.str pages +:+ Py.NL +:+ Py.NL
            +:+ page_entries (Z.to_nat pages) 1 lines_per_page total_lines), w') ∧
    (∀ p, 1 ≤ p ≤ pages →
       let first := (p - 1) * lines_per_page + 1 in
       let last := Z.min (p * lines_per_page) total_lines in
       first ≤ last ∧
       Z.of_nat (length (page_lines lines p lines_per_page)) = last - first + 1 ∧
       (∀ i : nat, (i < length (page_lines lines p lines_per_page))%nat →
          page_lines lines p lines_per_page !! i
            = lines !! (Z.to_nat (first - 1) + i)%nat) ∧
       read_markdown_pages os file_path (Some p) lines_per_page w =
         (Ret ("=== Page " +:+ Py.str p +:+ "/" +:+ Py.str pages
               +:+ " from " +:+ file_path +:+ " ===" +:+ Py.NL
               +:+ "Lines " +:+ Py.str first +:+ "-" +:+ Py.str last
               +:+ " of " +:+ Py.str total_lines +:+ Py.NL +:+ Py.NL
               +:+ number_from first (page_lines lines p lines_per_page)), w')) ∧
    concat ((λ p, page_lines lines p lines_per_page) <$> Py.range 1 (pages + 1)) = lines ∧
    foldr (λ p rest,
      number_from ((p - 1) * lines_per_page + 1) (page_lines lines p lines_per_page)
      +:+ rest) EmptyString (Py.range 1 (pages + 1))
    = number_from 1 lines.
Proof.
  intros Hex Hread HL lines total_lines.
  destruct (total_pages_ceiling total_lines lines_per_page HL) as (pages & Hpages & Hceil).
  assert (0 ≤ pages) as Hnn by nia.
  assert (Htool : ∀ page_num,
    read_markdown_pages os file_path page_num lines_per_page w =
    try_except
      (read_markdown_pages_try os file_path page_num lines_per_page)
      [except_Exception "Error reading markdown pages"] w) by done.
  exists pages. split; [done|]. split; [done|]. split; [|split; [|split]].
  - rewrite Htool, try_except_blanket.
    unfold read_markdown_pages_try, read_lines.
    unfold bind at 1, observe. rewrite Hex. simpl.
    unfold bind at 1. unfold bind at 1. rewrite Hread. simpl.
    fold lines. fold total_lines. rewrite Hpages, bind_lift_ret.
    unfold ret, Py.range. rewrite page_entries_fold, !string_app_assoc.
    by replace (Z.to_nat (pages + 1 - 1)) with (Z.to_nat pages) by lia.
  - intros p Hp first last.
    destruct (page_lines_cover lines lines_per_page pages p HL Hceil Hp)
      as (Hle & Hlen & Hlookup).
    split; [exact Hle|]. split; [exact Hlen|]. split; [exact Hlookup|].
    rewrite Htool, try_except_blanket.
    unfold read_markdown_pages_try, read_lines.
    unfold bind at 1, observe. rewrite Hex. simpl.
    unfold bind at 1. unfold bind at 1. rewrite Hread. simpl.
    fold lines. fold total_lines. rewrite Hpages, bind_lift_ret.
    rewrite (proj2 (Z.ltb_ge p 1)), (proj2 (Z.ltb_ge pages p)) by lia.
    simpl. unfold ret. rewrite number_from_fold.
    unfold page_start, page_end. fold first last.
    rewrite Z.add_0_r, !string_app_assoc. reflexivity.
  - rewrite <- (Z2Nat.id pages Hnn), pages_upto by done.
    apply take_ge. subst total_lines. nia.
  - rewrite <- (Z2Nat.id pages Hnn), page_bodies_upto by done.
    f_equal. apply take_ge. subst total_lines. nia.
Qed.

Lemma pages_partition_the_lines_witness :
  total_pages 25 10 = Ret 3 ∧
  read_markdown_pages ref_os "docs/long.md" None 10 Sample.machine =
    (Ret ("=== File: docs/long.md ===" +:+ Py.NL
          +:+ "Total lines: 25" +:+ Py.NL
          +:+ "Lines per page: 10" +:+ Py.NL
          +:+ "Total pages: 3" +:+ Py.NL +:+ Py.NL
          +:+ "Page 1: Lines 1-10" +:+ Py.NL
          +:+ "Page 2: Lines 11-20" +:+ Py.NL
          +:+ "Page 3: Lines 21-25" +:+ Py.NL), Sample.machine) ∧
  read_markdown_pages ref_os "docs/long.md" (Some 2) 10 Sample.machine =
    (Ret ("=== Page 2/3 from docs/long.md ===" +:+ Py.NL
          +:+ "Lines 11-20 of 25" +:+ Py.NL +:+ Py.NL
          +:+ number_from 11
                (Py.readlines (Sample.text
                   ["line 11"; "line 12"; "line 13"; "line 14"; "line 15";
                    "line 16"; "line 17"; "line 18"; "line 19"; "line 20"; ""]))),
     Sample.machine) ∧
  concat ((λ p, page_lines (Py.readlines (Sample.text (Sample.numbered 25 ++ [""]))) p 10)
            <$> [1; 2; 3])
    = Py.readlines (Sample.text (Sample.numbered 25 ++ [""])).
Proof.
  destruct (pages_partition_the_lines ref_os "docs/long.md"
              (Sample.text (Sample.numbered 25 ++ [""])) Sample.machine Sample.machine 10)
    as (pages & Hpages & _ & Hoverview & Hpage & Hconcat & _);
    [reflexivity|reflexivity|lia|].
  assert (pages = 3) as -> by (vm_compute in Hpages; congruence).
  split; [reflexivity|]. split; [|split].
  - etrans; [exact Hoverview|]. vm_compute. reflexivity.
  - destruct (Hpage 2) as (_ & _ & _ & Htwo); [lia|].
    etrans; [exact Htwo|]. vm_compute. reflexivity.
  - exact Hconcat.
Defined.

(** The example of C3: page 2 of a file of 25 lines, 10 lines to a page. *)
Example page_two_of_three :
  total_pages 25 10 = Ret 3 ∧
  page_start 2 10 + 1 = 11 ∧ page_end 2 10 25 = 20 ∧
  page_lines (Sample.numbered 25) 2 10
    = ["line 11"; "line 12"; "line 13"; "line 14"; "line 15";
       "line 16"; "line 17"; "line 18"; "line 19"; "line 20"] ∧
  ∃ rest,
    (read_markdown_pages ref_os "docs/long.md" (Some 2) 10 Sample.machine).1
      = Ret ("=== Page 2/3 from docs/long.md ===" +:+ Py.NL +:+
             "Lines 11-20 of 25" +:+ Py.NL +:+ Py.NL +:+
             "  11 | line 11" +:+ Py.NL +:+ rest).
Proof.
  repeat split; try reflexivity.
  eexists. vm_compute. reflexivity.
Qed.

(** ** Ranges of lines and pages *)







(** ** read_markdown_sections: the sections and their line numbers *)

Lemma scan_lines_headers (lines todo : list string) (st st' : scan) :
  scan_lines lines st todo = Ret st' →
  (saved st').*1 = (saved st).*1 ++ omap (header_info lines) todo.
Proof.
  revert st. induction todo as [|ln todo IH]; intros st; simpl.
  - intros [= <-]. by rewrite app_nil_r.
  - destruct (scan_line lines st ln) as [st1|e] eqn:Hstep; [|done].
    intros Hrest. rewrite (IH _ Hrest). clear IH Hrest.
    unfold scan_line in Hstep. unfold header_info.
    destruct (HeaderRe.header_match ln) as [[hashes title]|].
    + destruct (Py.index lines ln) as [i|]; [|done].
      injection Hstep as <-. unfold saved at 1. simpl.
      rewrite fmap_app, <- app_assoc. reflexivity.
    + f_equal. unfold saved. destruct (current_section st) as [cur|] eqn:Hcur.
      * injection Hstep as <-. simpl. by rewrite !fmap_app.
      * by injection Hstep as <-.
Qed.

(** The sections come one per header line, in the order of the lines, and
    the line number of each is that of the first line equal to its header. *)
Lemma parse_sections_headers (content : string) (secs : list (section_info * string)) :
  parse_sections content = Ret secs →
  secs.*1 = omap (header_info (Py.splitlines content)) (Py.splitlines content).
Proof.
  unfold parse_sections.
  destruct (scan_lines _ _ _) as [st|e] eqn:Hscan; [|done].
  intros [= <-]. exact (scan_lines_headers _ _ _ _ Hscan).
Qed.

(** A text without a header line yields no section at all. *)
Lemma no_header_no_section (content : string) :
  (∀ ln, ln ∈ Py.splitlines content → HeaderRe.header_match ln = None) →
  parse_sections content = Ret [].
Proof.
  intros Hnone. destruct (parse_sections_returns content) as [secs Hsecs].
  rewrite Hsecs. f_equal. apply fmap_nil_inv with (f := fst).
  rewrite (parse_sections_headers _ _ Hsecs).
  assert (∀ todo, (∀ ln, ln ∈ todo → HeaderRe.header_match ln = None) →
            omap (header_info (Py.splitlines content)) todo = []) as Hall.
  { induction todo as [|ln todo IH]; [done|]. intros H. simpl.
    unfold header_info at 1. rewrite (H ln) by left. apply IH.
    intros l Hl. apply H. by right. }
  by apply Hall.
Qed.

(** C1 fails on the code.  In this file the header of the third section
    repeats that of the first: the sections come in document order, but the
    third reports line 1, the line of the first, where its header is line 3;
    the line numbers 1, 2, 1 do not increase. *)
Theorem repeated_header_reports_first_line :
  parse_sections (Sample.text ["# A"; "# B"; "# A"])
    = Ret [(Section_info "A" 1 1, "# A"); (Section_info "B" 1 2, "# B");
           (Section_info "A" 1 1, "# A")] ∧
  read_markdown_sections ref_os "docs/repeat.md" None Sample.machine
    = (Ret ("=== Sections in docs/repeat.md ===" +:+ Py.NL +:+ Py.NL +:+
            "- A (Line 1)" +:+ Py.NL +:+
            "- B (Line 2)" +:+ Py.NL +:+
            "- A (Line 1)" +:+ Py.NL),
       Sample.machine).
Proof. split; reflexivity. Qed.

(** C2 fails on the code.  The line before the first header of this file
    is in no section: the only section is that of the header, its text
    starts at the header, and the listing has no preamble entry. *)
Theorem preamble_is_dropped :
  parse_sections (Sample.text ["intro"; "# A"; "body"])
    = Ret [(Section_info "A" 1 2, Sample.text ["# A"; "body"])] ∧
  read_markdown_sections ref_os "docs/intro.md" None Sample.machine
    = (Ret ("=== Sections in docs/intro.md ===" +:+ Py.NL +:+ Py.NL +:+
            "- A (Line 2)" +:+ Py.NL),
       Sample.machine) ∧
  read_markdown_sections ref_os "docs/intro.md" (Some "A") Sample.machine
    = (Ret ("=== Section: A ===" +:+ Py.NL +:+
            "Line: 2, Level: 1" +:+ Py.NL +:+ Py.NL +:+
            "# A" +:+ Py.NL +:+ "body"),
       Sample.machine).
Proof. repeat split; reflexivity. Qed.

(** The example of the specification: a file of three lines, two sections. *)
Example two_sections :
  parse_sections ("# A" +:+ Py.NL +:+ "body" +:+ Py.NL +:+ "# B" +:+ Py.NL)
    = Ret [(Section_info "A" 1 1, "# A" +:+ Py.NL +:+ "body");
           (Section_info "B" 1 3, "# B")].
Proof. reflexivity. Qed.

(** * Further properties of the tools *)

(** ** What the line and page tools print *)

Lemma range_length (a b : Z) : length (Py.range a b) = Z.to_nat (b - a).
Proof. unfold Py.range. by rewrite length_fmap, length_seq. Qed.

Lemma range_lookup (a b : Z) (i : nat) :
  (i < Z.to_nat (b - a))%nat → Py.range a b !! i = Some (a + Z.of_nat i).
Proof.
  intros Hi. unfold Py.range. rewrite list_lookup_fmap, lookup_seq_lt by done. done.
Qed.

Lemma getitem_range (what : string) (a b i : Z) :
  0 ≤ i < b - a → getitem what (Py.range a b) i = Ret (a + i).
Proof.
  intros Hi. unfold getitem. rewrite range_length.
  destruct (Z.ltb_spec i 0); [lia|].
  rewrite (proj2 (Z.leb_le 0 i)), (proj2 (Z.ltb_lt i _)) by lia. simpl.
  rewrite range_lookup by lia. f_equal. lia.
Qed.

Lemma getitem_range_last (what : string) (a b : Z) :
  a < b → getitem what (Py.range a b) (-1) = Ret (b - 1).
Proof.
  intros Hab. unfold getitem. rewrite range_length. simpl.
  rewrite (proj2 (Z.leb_le 0 _)), (proj2 (Z.ltb_lt _ _)) by lia. simpl.
  rewrite range_lookup by lia. f_equal. lia.
Qed.

Lemma getitem_range_empty (what : string) (a b i : Z) :
  b ≤ a → getitem what (Py.range a b) i = Raise (Exn OtherException (what +:+ " index out of range")).
Proof.
  intros Hab. unfold getitem. rewrite range_length.
  replace (Z.to_nat (b - a)) with 0%nat by lia. simpl.
  match goal with |- context [?x && ?y] => destruct (x && y) eqn:Hin end; [|done].
  apply andb_true_iff in Hin as [?%Z.leb_le ?%Z.ltb_lt]. lia.
Qed.

Lemma number_from_for_each {W} (a b k : Z) (ls : list string) (acc : string) (w : W) :
  0 ≤ k → k + Z.of_nat (length ls) ≤ b - a →
  for_each (Py.enumerate k ls) acc (λ result '(i, ln),
    number <- lift (getitem "range object" (Py.range a b) i) ;;
    ret (result +:+ Py.fmt_4d number +:+ " | " +:+ ln)) w
  = (Ret (acc +:+ number_from (a + k) ls), w).
Proof.
  revert k acc. induction ls as [|ln ls IH]; intros k acc Hk Hlen; simpl.
  - by rewrite string_app_nil_r.
  - simpl in Hlen. unfold bind at 1.
    rewrite getitem_range, bind_lift_ret by lia. simpl.
    rewrite IH by lia. rewrite !string_app_assoc. by rewrite Z.add_assoc.
Qed.

Lemma selected_lines_length (lines : list string) (start_line : Z) (end_line : option Z) :
  start_index start_line < Z.of_nat (length lines) →
  start_line + Z.of_nat (length (selected_lines lines start_line end_line))
    ≤ Z.of_nat (length lines) + 1.
Proof.
  intros Hstart. unfold selected_lines, Py.slice.
  rewrite length_take, length_drop.
  rewrite (slice_bound_nonneg _ (start_index start_line)) by (unfold start_index; lia).
  unfold start_index in *. lia.
Qed.

Lemma selected_lines_nonempty (lines : list string) (start_line : Z) (end_line : option Z) :
  selected_lines lines start_line end_line ≠ [] →
  start_index start_line < Z.of_nat (length lines).
Proof.
  intros Hsel. destruct (Z.lt_ge_cases (start_index start_line) (Z.of_nat (length lines)))
    as [|Hge]; [done|].
  destruct Hsel. unfold selected_lines, Py.slice.
  rewrite (slice_bound_nonneg _ (start_index start_line)) by (unfold start_index; lia).
  rewrite drop_ge by lia. by rewrite take_nil.
Qed.

(** X1.  When the range asked of read_markdown_lines selects at least one
    line, the tool returns a header and the selected lines, numbered upwards
    from [start_line] as given (also when it is below 1).  When the start
    lies in the file but the range selects no line, the tool returns the
    string its blanket handler makes of an IndexError. *)
Theorem lines_are_printed {W} (os : OS W) (file_path content : string) (w w' : W)
    (start_line : Z) (end_line : option Z) :
  path_exists os file_path w = true →
  read_text os file_path w = (Ret content, w') →
  let lines := Py.readlines content in
  let total_lines := Z.of_nat (length lines) in
  let selected := selected_lines lines start_line end_line in
  (selected ≠ [] →
   read_markdown_lines os file_path start_line end_line w =
     (Ret ("=== Lines " +:+ Py.str start_line +:+ "-"
           +:+ Py.str (start_line + Z.of_nat (length selected) - 1)
           +:+ " from " +:+ file_path +:+ " ===" +:+ Py.NL
           +:+ "Total file lines: " +:+ Py.str total_lines +:+ Py.NL +:+ Py.NL
           +:+ number_from start_line selected), w')) ∧
  (selected = [] → start_index start_line < total_lines →
   read_markdown_lines os file_path start_line end_line w =
     (Ret "Error reading markdown lines: range object index out of range", w')).
Proof.
  intros Hex Hread lines total_lines selected.
  assert (Hrun : start_index start_line < total_lines →
    read_markdown_lines_try os file_path start_line end_line w =
    (let line_numbers := Py.range start_line (start_line + Z.of_nat (length selected)) in
     first <- lift (getitem "range object" line_numbers 0) ;;
     last <- lift (getitem "range object" line_numbers (-1)) ;;
     let result := "=== Lines " +:+ Py.str first +:+ "-" +:+ Py.str last +:+ " from "
                   +:+ file_path +:+ " ===" +:+ Py.NL in
     let result := result +:+ "Total file lines: " +:+ Py.str total_lines
                   +:+ Py.NL +:+ Py.NL in
     for_each (Py.enumerate 0 selected) result (λ result '(i, ln),
       number <- lift (getitem "range object" line_numbers i) ;;
       ret (result +:+ Py.fmt_4d number +:+ " | " +:+ ln))) w').
  { intros Hstart.
    unfold read_markdown_lines_try, read_lines.
    unfold bind at 1, observe. rewrite Hex. simpl.
    unfold bind at 1. unfold bind at 1. rewrite Hread. simpl.
    fold lines. fold total_lines.
    rewrite (proj2 (Z.leb_gt total_lines _)) by done.
    fold selected.
    rewrite Z.min_l; [done|].
    apply (selected_lines_length lines start_line end_line Hstart). }
  split.
  - intros Hsel.
    pose proof (selected_lines_nonempty lines start_line end_line Hsel) as Hstart.
    unfold read_markdown_lines. rewrite try_except_blanket, (Hrun Hstart).
    assert (0 < Z.of_nat (length selected)) as Hpos.
    { destruct selected; [done|simpl; lia]. }
    cbv zeta. rewrite (getitem_range _ _ _ 0), bind_lift_ret by lia.
    rewrite getitem_range_last, bind_lift_ret by lia.
    rewrite number_from_for_each by lia.
    rewrite !Z.add_0_r, !string_app_assoc.
    reflexivity.
  - intros Hsel Hstart.
    unfold read_markdown_lines. rewrite try_except_blanket, (Hrun Hstart).
    cbv zeta. rewrite Hsel. simpl length.
    rewrite (getitem_range_empty _ _ _ 0), bind_lift_raise by lia. reflexivity.
Qed.

Lemma lines_are_printed_witness :
  read_markdown_lines ref_os "docs/five.md" 0 (Some 2) Sample.machine =
    (Ret ("=== Lines 0-1 from docs/five.md ===" +:+ Py.NL
          +:+ "Total file lines: 5" +:+ Py.NL +:+ Py.NL
          +:+ "   0 | line 1" +:+ Py.NL +:+ "   1 | line 2" +:+ Py.NL), Sample.machine) ∧
  read_markdown_lines ref_os "docs/five.md" 3 (Some 1) Sample.machine =
    (Ret "Error reading markdown lines: range object index out of range", Sample.machine).
Proof.
  split.
  - apply (lines_are_printed ref_os "docs/five.md"
             (Sample.text (Sample.numbered 5 ++ [""])) Sample.machine Sample.machine
             0 (Some 2)); [reflexivity|reflexivity|]. vm_compute. discriminate.
  - apply (lines_are_printed ref_os "docs/five.md"
             (Sample.text (Sample.numbered 5 ++ [""])) Sample.machine Sample.machine
             3 (Some 1)); [reflexivity|reflexivity|reflexivity|]. vm_compute. reflexivity.
Defined.



(** X3.  For a page number in [1..total_pages], read_markdown_pages returns
    a header that names the page, the number of pages and the first and last
    line of the page, and then the lines of the page, each with its own line
    number, the first being [(page_num - 1) * lines_per_page + 1]. *)
Theorem page_is_printed {W} (os : OS W) (file_path content : string) (w w' : W)
    (page_num lines_per_page pages : Z) :
  path_exists os file_path w = true →
  read_text os file_path w = (Ret content, w') →
  let lines := Py.readlines content in
  let total_lines := Z.of_nat (length lines) in
  total_pages total_lines lines_per_page = Ret pages →
  1 ≤ page_num ≤ pages →
  let first := (page_num - 1) * lines_per_page + 1 in
  let last := Z.min (page_num * lines_per_page) total_lines in
  read_markdown_pages os file_path (Some page_num) lines_per_page w =
    (Ret ("=== Page " +:+ Py.str page_num +:+ "/" +:+ Py.str pages
          +:+ " from " +:+ file_path +:+ " ===" +:+ Py.NL
          +:+ "Lines " +:+ Py.str first +:+ "-" +:+ Py.str last
          +:+ " of " +:+ Py.str total_lines +:+ Py.NL +:+ Py.NL
          +:+ number_from first (page_lines lines page_num lines_per_page)), w').
Proof.
  intros Hex Hread lines total_lines Hpages Hp first last.
  unfold read_markdown_pages. rewrite try_except_blanket.
  unfold read_markdown_pages_try, read_lines.
  unfold bind at 1, observe. rewrite Hex. simpl.
  unfold bind at 1. unfold bind at 1. rewrite Hread. simpl.
  fold lines. fold total_lines. rewrite Hpages, bind_lift_ret.
  rewrite (proj2 (Z.ltb_ge page_num 1)), (proj2 (Z.ltb_ge pages page_num)) by lia.
  simpl. unfold ret. rewrite number_from_fold.
  unfold page_start, page_end. fold first last.
  rewrite Z.add_0_r, !string_app_assoc. reflexivity.
Qed.

Lemma page_is_printed_witness :
  read_markdown_pages ref_os "docs/five.md" (Some 3) 2 Sample.machine =
    (Ret ("=== Page 3/3 from docs/five.md ===" +:+ Py.NL
          +:+ "Lines 5-5 of 5" +:+ Py.NL +:+ Py.NL
          +:+ "   5 | line 5" +:+ Py.NL), Sample.machine).
Proof.
  apply (page_is_printed ref_os "docs/five.md"
           (Sample.text (Sample.numbered 5 ++ [""])) Sample.machine Sample.machine 3 2 3);
    [reflexivity|reflexivity|reflexivity|lia].
Defined.

(** X4.  With [lines_per_page = 0] read_markdown_pages returns, for every
    file it can read and whatever the page asked for, the string its blanket
    handler makes of the ZeroDivisionError. *)
Theorem zero_page_size_is_an_error {W} (os : OS W) (file_path content : string) (w w' : W)
    (page_num : option Z) :
  path_exists os file_path w = true →
  read_text os file_path w = (Ret content, w') →
  read_markdown_pages os file_path page_num 0 w =
    (Ret "Error reading markdown pages: integer division or modulo by zero", w').
Proof.
  intros Hex Hread.
  unfold read_markdown_pages. rewrite try_except_blanket.
  unfold read_markdown_pages_try, read_lines.
  unfold bind at 1, observe. rewrite Hex. simpl.
  unfold bind at 1. unfold bind at 1. rewrite Hread. simpl.
  reflexivity.
Qed.

Lemma zero_page_size_is_an_error_witness :
  read_markdown_pages ref_os "docs/five.md" None 0 Sample.machine =
    (Ret "Error reading markdown pages: integer division or modulo by zero",
     Sample.machine).
Proof.
  apply (zero_page_size_is_an_error ref_os "docs/five.md"
           (Sample.text (Sample.numbered 5 ++ [""]))); reflexivity.
Defined.

(** ** The header pattern *)

Lemma hashes_S (j : nat) : hashes (S j) = String "#" (hashes j).
Proof. unfold hashes, Py.repeat_str. rewrite !Nat2Z.id. reflexivity. Qed.

Lemma drop_final_LF_split (s : string) :
  ∃ tail, s = HeaderRe.drop_final_LF s +:+ tail ∧ (tail = EmptyString ∨ tail = Py.NL).
Proof.
  induction s as [|c s IH]; [by exists EmptyString; auto|].
  destruct s as [|c' s'].
  - simpl. case_bool_decide as Hc.
    + subst c. exists Py.NL. auto.
    + exists EmptyString. auto.
  - destruct IH as (tail & Hs & Htail). exists tail. split; [|done].
    change (HeaderRe.drop_final_LF (String c (String c' s')))
      with (String c (HeaderRe.drop_final_LF (String c' s'))).
    by rewrite app_cons, <- Hs.
Qed.

Lemma drop_final_LF_id (s : string) : HeaderRe.no_LF s = true → HeaderRe.drop_final_LF s = s.
Proof.
  induction s as [|c s IH]; [done|]. simpl. intros [Hc Hs]%andb_true_iff.
  destruct s as [|c' s'].
  - apply negb_true_iff in Hc. by rewrite Hc.
  - by rewrite IH.
Qed.

Lemma rest_of_line_shape (s g : string) :
  HeaderRe.rest_of_line s = Some g →
  ∃ tail, s = g +:+ tail ∧ g ≠ EmptyString ∧ HeaderRe.no_LF g = true ∧
          (tail = EmptyString ∨ tail = Py.NL).
Proof.
  unfold HeaderRe.rest_of_line.
  destruct (truthy _ && _) eqn:Hok; [|done]. intros [= <-].
  apply andb_true_iff in Hok as [Hne%truthy_spec Hno].
  destruct (drop_final_LF_split s) as (tail & Hs & Htail). by exists tail.
Qed.

Lemma spaces_then_rest_shape (s g : string) :
  HeaderRe.spaces_then_rest s = Some g →
  ∃ ws tail, s = ws +:+ g +:+ tail ∧ ws ≠ EmptyString ∧ all_space ws = true ∧
             g ≠ EmptyString ∧ HeaderRe.no_LF g = true ∧
             (tail = EmptyString ∨ tail = Py.NL).
Proof.
  revert g. induction s as [|c s IH]; intros g; simpl; [done|].
  destruct (Py.isspace c) eqn:Hc; [|done].
  destruct (HeaderRe.spaces_then_rest s) as [g'|] eqn:Hrec.
  - intros [= <-]. destruct (IH g' eq_refl) as (ws & tail & -> & _ & Hws & Hg).
    exists (String c ws), tail. split; [done|]. split; [done|]. split; [|done].
    simpl. by rewrite Hc.
  - intros (tail & -> & Hg)%rest_of_line_shape.
    exists (String c EmptyString), tail. split; [done|]. split; [done|]. split; [|done].
    simpl. by rewrite Hc.
Qed.

Lemma hashes_then_shape (more : nat) (k k' : Z) (s g : string) :
  HeaderRe.hashes_then more k s = Some (k', g) →
  ∃ (j : nat) ws tail,
    k' = k + Z.of_nat j ∧ (j ≤ more)%nat ∧ 1 ≤ k' ∧
    s = hashes j +:+ ws +:+ g +:+ tail ∧ ws ≠ EmptyString ∧ all_space ws = true ∧
    g ≠ EmptyString ∧ HeaderRe.no_LF g = true ∧ (tail = EmptyString ∨ tail = Py.NL).
Proof.
  assert (Hstop : ∀ more k s,
    (if 1 <=? k then pair k <$> HeaderRe.spaces_then_rest s else None) = Some (k', g) →
    ∃ (j : nat) ws tail,
      k' = k + Z.of_nat j ∧ (j ≤ more)%nat ∧ 1 ≤ k' ∧
      s = hashes j +:+ ws +:+ g +:+ tail ∧ ws ≠ EmptyString ∧ all_space ws = true ∧
      g ≠ EmptyString ∧ HeaderRe.no_LF g = true ∧ (tail = EmptyString ∨ tail = Py.NL)).
  { intros more0 k0 s0. destruct (Z.leb_spec 1 k0); [|done].
    destruct (HeaderRe.spaces_then_rest s0) as [g0|] eqn:Hsp; [|done].
    intros [= <- <-]. apply spaces_then_rest_shape in Hsp as (ws & tail & -> & Hrest).
    exists 0%nat, ws, tail. split; [lia|]. split; [lia|]. split; [done|]. done. }
  revert k s. induction more as [|more IH]; intros k s.
  - simpl. destruct s; apply Hstop.
  - simpl. destruct s as [|c s]; [apply Hstop|].
    case_bool_decide as Hc; [|apply Hstop].
    destruct (HeaderRe.hashes_then more (k + 1) s) as [r|] eqn:Hrec; [|apply Hstop].
    intros [= ->]. subst c.
    destruct (IH _ _ Hrec) as (j & ws & tail & -> & Hj & Hk & -> & Hrest).
    exists (S j), ws, tail. split; [lia|]. split; [lia|]. split; [done|].
    split; [|done]. by rewrite hashes_S, app_cons.
Qed.

(** X5.  A line that read_markdown_sections takes for a header is made of
    one to six hashes, then whitespace, then a title that is not empty and
    holds no line feed; the level recorded is the number of hashes. *)
Theorem header_match_shape (ln g : string) (k : Z) :
  HeaderRe.header_match ln = Some (k, g) →
  ∃ (j : nat) ws tail,
    k = Z.of_nat j ∧ (1 ≤ j ≤ 6)%nat ∧
    ln = hashes j +:+ ws +:+ g +:+ tail ∧
    ws ≠ EmptyString ∧ all_space ws = true ∧
    g ≠ EmptyString ∧ HeaderRe.no_LF g = true ∧
    (tail = EmptyString ∨ tail = Py.NL).
Proof.
  unfold HeaderRe.header_match.
  intros (j & ws & tail & -> & Hj & Hk & Hrest)%hashes_then_shape.
  exists j, ws, tail. split; [lia|]. split; [lia|]. done.
Qed.

Lemma header_match_shape_witness :
  ∃ (j : nat) ws tail,
    2 = Z.of_nat j ∧ (1 ≤ j ≤ 6)%nat ∧
    "##  Methods " = hashes j +:+ ws +:+ "Methods " +:+ tail ∧
    ws ≠ EmptyString ∧ all_space ws = true ∧
    "Methods " ≠ EmptyString ∧ HeaderRe.no_LF "Methods " = true ∧
    (tail = EmptyString ∨ tail = Py.NL).
Proof. apply (header_match_shape "##  Methods " "Methods " 2). reflexivity. Defined.

Lemma rest_of_line_id (s : string) :
  s ≠ EmptyString → HeaderRe.no_LF s = true → HeaderRe.rest_of_line s = Some s.
Proof.
  intros Hne Hno. unfold HeaderRe.rest_of_line.
  rewrite drop_final_LF_id by done. rewrite Hno.
  by rewrite (proj2 (truthy_spec s)).
Qed.

Lemma strip_skips (c : ascii) (s : string) :
  Py.isspace c = true → Py.strip (String c s) = Py.strip s.
Proof. intros Hc. unfold Py.strip. simpl. by rewrite Hc. Qed.

Lemma spaces_then_rest_finds (c : ascii) (text : string) :
  Py.isspace c = true → text ≠ EmptyString → HeaderRe.no_LF text = true →
  ∃ g, HeaderRe.spaces_then_rest (String c text) = Some g ∧ Py.strip g = Py.strip text.
Proof.
  revert c. induction text as [|d text IH]; intros c Hc Hne Hno; [done|].
  simpl in Hno. apply andb_true_iff in Hno as [Hd Hno].
  change (HeaderRe.spaces_then_rest (String c (String d text)))
    with (if Py.isspace c then
            match HeaderRe.spaces_then_rest (String d text) with
            | Some g => Some g
            | None => HeaderRe.rest_of_line (String d text)
            end
          else None).
  rewrite Hc.
  destruct (Py.isspace d) eqn:Hsp.
  - destruct text as [|d' text'].
    + simpl. rewrite Hsp. simpl.
      rewrite rest_of_line_id; [eexists; split; reflexivity|done|]. simpl. by rewrite Hd.
    + destruct (IH d Hsp ltac:(done) Hno) as (g & -> & Hg).
      exists g. split; [done|]. rewrite Hg. symmetry. by apply strip_skips.
  - simpl. rewrite Hsp.
    rewrite rest_of_line_id; [eexists; split; reflexivity|done|]. simpl. by rewrite Hd, Hno.
Qed.

Lemma hashes_then_finds (j more : nat) (k : Z) (c : ascii) (text : string) :
  (j ≤ more)%nat → 1 ≤ k + Z.of_nat j →
  Py.isspace c = true → text ≠ EmptyString → HeaderRe.no_LF text = true →
  ∃ g, HeaderRe.hashes_then more k (hashes j +:+ String c text)
         = Some (k + Z.of_nat j, g) ∧ Py.strip g = Py.strip text.
Proof.
  intros Hj Hk Hc Hne Hno.
  destruct (spaces_then_rest_finds c text Hc Hne Hno) as (g & Hg & Hstrip).
  exists g. split; [|done]. clear Hstrip.
  revert more k Hj Hk. induction j as [|j IH]; intros more k Hj Hk.
  - assert (c ≠ "#"%char) as Hnot by (intros ->; done).
    change (hashes 0 +:+ String c text) with (String c text).
    rewrite Z.add_0_r in *.
    destruct more; cbn [HeaderRe.hashes_then]; rewrite ?bool_decide_false by done;
      rewrite (proj2 (Z.leb_le 1 k)) by done; by rewrite Hg.
  - destruct more as [|more]; [lia|].
    rewrite hashes_S, app_cons. cbn [HeaderRe.hashes_then].
    rewrite bool_decide_true by done.
    rewrite (IH more (k + 1)) by lia. do 2 f_equal. lia.
Qed.

(** X6.  Every line made of one to six hashes, a whitespace character and a
    text that is not empty and holds no line feed is taken for a header: the
    level is the number of hashes and the name is that text stripped. *)
Theorem header_match_finds (j : nat) (c : ascii) (text : string) :
  (1 ≤ j ≤ 6)%nat → Py.isspace c = true →
  text ≠ EmptyString → HeaderRe.no_LF text = true →
  ∃ g, HeaderRe.header_match (hashes j +:+ String c text) = Some (Z.of_nat j, g) ∧
       Py.strip g = Py.strip text.
Proof.
  intros Hj Hc Hne Hno. unfold HeaderRe.header_match.
  destruct (hashes_then_finds j 6 0 c text) as (g & Hg & Hs); try done; try lia.
  exists g. by rewrite Hg.
Qed.

Lemma header_match_finds_witness :
  ∃ g, HeaderRe.header_match (hashes 3 +:+ String " " "  Data Collection  ")
         = Some (3, g) ∧
       Py.strip g = Py.strip "  Data Collection  ".
Proof. apply (header_match_finds 3 " " "  Data Collection  "); [lia|done..]. Defined.

(** ** The sections of a file *)

Lemma is_header_match (ln : string) :
  is_header ln = true ↔ ∃ k g, HeaderRe.header_match ln = Some (k, g).
Proof.
  unfold is_header. destruct (HeaderRe.header_match ln) as [[k g]|].
  - split; [by eexists _, _|done].
  - split; [done|]. by intros (k & g & ?).
Qed.

Lemma index_of_only_copy (l : list string) (i : nat) (x : string) :
  NoDup (filter (λ ln, is_header ln = true) l) →
  l !! i = Some x → is_header x = true → Py.index l x = Some i.
Proof.
  revert i. induction l as [|y l IH]; intros i Hnd Hi Hx; [done|]. simpl.
  destruct i as [|i]; simpl in Hi.
  - simplify_eq. by rewrite decide_True.
  - destruct (decide (y = x)) as [->|Hne].
    + rewrite filter_cons_True in Hnd by done.
      apply NoDup_cons in Hnd as [Hnot _]. destruct Hnot.
      apply list_elem_of_filter. split; [done|]. by eapply list_elem_of_lookup_2.
    + rewrite (IH i); [done| |done|done].
      rewrite filter_cons in Hnd. destruct (decide (is_header y = true)); [|done].
      by apply NoDup_cons in Hnd as [_ ?].
Qed.

Lemma headers_with_own_numbers (lines before todo : list string) :
  lines = before ++ todo →
  NoDup (filter (λ ln, is_header ln = true) lines) →
  omap (header_info lines) todo = headers_from (length before) todo.
Proof.
  revert before. induction todo as [|ln todo IH]; intros before Hlines Hnd; [done|].
  simpl. unfold header_info at 1.
  assert (lines !! length before = Some ln) as Hat.
  { rewrite Hlines. by rewrite list_lookup_middle. }
  assert (omap (header_info lines) todo = headers_from (S (length before)) todo) as Hrest.
  { rewrite (IH (before ++ [ln])); [|by rewrite <- app_assoc|done].
    rewrite length_app. simpl. by rewrite Nat.add_1_r. }
  unfold omap in Hrest. rewrite Hrest.
  destruct (HeaderRe.header_match ln) as [[k g]|] eqn:Hm; [|done].
  rewrite (index_of_only_copy lines (length before) ln Hnd Hat); [done|].
  apply is_header_match. by eexists _, _.
Qed.

Lemma headers_from_numbers (k : nat) (todo : list string) :
  Forall (λ n, Z.of_nat k < n) (line <$> headers_from k todo) ∧
  StronglySorted Z.lt (line <$> headers_from k todo).
Proof.
  revert k. induction todo as [|ln todo IH]; intros k; simpl.
  - split; constructor.
  - destruct (IH (S k)) as [Hgt Hsorted].
    assert (Forall (λ n, Z.of_nat k < n) (line <$> headers_from (S k) todo)) as Hgt'.
    { eapply Forall_impl; [exact Hgt|]. simpl. intros; lia. }
    destruct (HeaderRe.header_match ln) as [[j g]|]; [|done].
    simpl. split.
    + constructor; [lia|done].
    + constructor; [done|]. eapply Forall_impl; [exact Hgt|]. simpl. intros; lia.
Qed.

Lemma headers_from_are_headers (before todo : list string) :
  Forall (λ s, ∃ ln hashes title,
            (before ++ todo) !! Z.to_nat (line s - 1) = Some ln ∧
            HeaderRe.header_match ln = Some (hashes, title) ∧
            name s = Py.strip title ∧ level s = hashes)
         (headers_from (length before) todo).
Proof.
  revert before. induction todo as [|ln todo IH]; intros before; simpl; [constructor|].
  assert (Forall (λ s, ∃ l hashes title,
            (before ++ ln :: todo) !! Z.to_nat (line s - 1) = Some l ∧
            HeaderRe.header_match l = Some (hashes, title) ∧
            name s = Py.strip title ∧ level s = hashes)
         (headers_from (S (length before)) todo)) as Hrest.
  { specialize (IH (before ++ [ln])). rewrite <- app_assoc in IH. simpl in IH.
    rewrite length_app in IH. simpl in IH. by rewrite Nat.add_1_r in IH. }
  destruct (HeaderRe.header_match ln) as [[k g]|] eqn:Hm; [|done].
  constructor; [|done]. exists ln, k, g. simpl.
  replace (Z.to_nat (Z.of_nat (length before) + 1 - 1)) with (length before) by lia.
  by rewrite list_lookup_middle.
Qed.

(** X7.  When no header line occurs twice in the file, the sections of
    read_markdown_sections carry the true numbers of their header lines:
    the line each section reports is a header line of the file whose
    stripped title and number of hashes are the section's name and level,
    and the numbers increase from one section to the next. *)
Theorem distinct_headers_have_true_line_numbers (content : string)
    (secs : list (section_info * string)) :
  parse_sections content = Ret secs →
  let lines := Py.splitlines content in
  NoDup (filter (λ ln, is_header ln = true) lines) →
  secs.*1 = headers_from 0 lines ∧
  StronglySorted Z.lt (line <$> secs.*1) ∧
  Forall (λ s, ∃ ln hashes title,
            lines !! Z.to_nat (line s - 1) = Some ln ∧
            HeaderRe.header_match ln = Some (hashes, title) ∧
            name s = Py.strip title ∧ level s = hashes) secs.*1.
Proof.
  intros Hsecs lines Hnd.
  assert (secs.*1 = headers_from 0 lines) as Heq.
  { rewrite (parse_sections_headers _ _ Hsecs).
    by apply (headers_with_own_numbers lines [] lines). }
  rewrite Heq. split; [done|]. split.
  - apply headers_from_numbers.
  - apply (headers_from_are_headers [] lines).
Qed.

Lemma distinct_headers_have_true_line_numbers_witness :
  let content :=
    Sample.text ["# Title"; "intro"; "## Methods"; "body"; "### Data"; "# Results"; "end"] in
  let secs :=
    [(Section_info "Title" 1 1, Sample.text ["# Title"; "intro"]);
     (Section_info "Methods" 2 3, Sample.text ["## Methods"; "body"]);
     (Section_info "Data" 3 5, "### Data");
     (Section_info "Results" 1 6, Sample.text ["# Results"; "end"])] in
  let lines := Py.splitlines content in
  parse_sections content = Ret secs ∧
  filter (λ ln, is_header ln = true) lines
    = ["# Title"; "## Methods"; "### Data"; "# Results"] ∧
  secs.*1 = headers_from 0 lines ∧
  StronglySorted Z.lt (line <$> secs.*1) ∧
  Forall (λ s, ∃ ln hashes title,
            lines !! Z.to_nat (line s - 1) = Some ln ∧
            HeaderRe.header_match ln = Some (hashes, title) ∧
            name s = Py.strip title ∧ level s = hashes) secs.*1.
Proof.
  intros content secs lines.
  split; [reflexivity|]. split; [reflexivity|].
  apply (distinct_headers_have_true_line_numbers content secs).
  - reflexivity.
  - apply (bool_decide_unpack _). vm_compute. exact I.
Defined.

Lemma pieces_concat (cur todo : list string) : concat (pieces cur todo) = cur ++ todo.
Proof.
  revert cur. induction todo as [|ln todo IH]; intros cur; simpl.
  - by rewrite !app_nil_r.
  - destruct (is_header ln); simpl; rewrite IH; [done|]. by rewrite <- app_assoc.
Qed.

Lemma pieces_headed (cur todo : list string) :
  headed cur → Forall headed (pieces cur todo).
Proof.
  revert cur. induction todo as [|ln todo IH]; intros cur Hcur; simpl.
  - by constructor.
  - destruct (is_header ln) eqn:Hln.
    + constructor; [done|]. apply IH. exists ln, []. by repeat split.
    + apply IH. destruct Hcur as (h & rest & -> & Hh & Hrest).
      exists h, (rest ++ [ln]). split; [done|]. split; [done|].
      apply Forall_app. split; [done|]. by constructor.
Qed.

Lemma scan_lines_open (lines todo : list string) (st st' : scan) :
  scan_lines lines st todo = Ret st' →
  is_Some (current_section st) →
  (saved st').*2 = (sections st).*2 ++ (Py.join Py.NL <$> pieces (current_content st) todo).
Proof.
  revert st. induction todo as [|ln todo IH]; intros st; simpl.
  - intros [= <-] [cur Hcur]. unfold saved. rewrite Hcur. by rewrite fmap_app.
  - destruct (scan_line lines st ln) as [st1|e] eqn:Hstep; [|done].
    intros Hrest [cur Hcur]. unfold scan_line, is_header in *.
    destruct (HeaderRe.header_match ln) as [[hashes title]|].
    + destruct (Py.index lines ln) as [i|]; [|done].
      injection Hstep as <-. rewrite (IH _ Hrest) by (by eexists).
      simpl. unfold saved. rewrite Hcur, fmap_app, <- app_assoc. done.
    + rewrite Hcur in Hstep. injection Hstep as <-.
      rewrite (IH _ Hrest) by (by eexists). done.
Qed.

Lemma scan_lines_before_first_header (lines todo : list string) (st st' : scan) :
  scan_lines lines st todo = Ret st' →
  current_section st = None → sections st = [] →
  (saved st').*2 =
  match from_first_header todo with
  | [] => []
  | h :: rest => Py.join Py.NL <$> pieces [h] rest
  end.
Proof.
  revert st. induction todo as [|ln todo IH]; intros st; simpl.
  - intros [= <-] Hcur Hsec. unfold saved. by rewrite Hcur, Hsec.
  - destruct (scan_line lines st ln) as [st1|e] eqn:Hstep; [|done].
    intros Hrest Hcur Hsec. unfold scan_line, is_header in *.
    destruct (HeaderRe.header_match ln) as [[hashes title]|].
    + destruct (Py.index lines ln) as [i|]; [|done].
      injection Hstep as <-. rewrite (scan_lines_open _ _ _ _ Hrest) by (by eexists).
      simpl. unfold saved. by rewrite Hcur, Hsec.
    + rewrite Hcur in Hstep. injection Hstep as <-.
      by rewrite (IH _ Hrest).
Qed.

Lemma from_first_header_headed (lines : list string) :
  match from_first_header lines with
  | [] => True
  | h :: _ => is_header h = true
  end.
Proof.
  induction lines as [|ln lines IH]; [done|]. simpl.
  by destruct (is_header ln) eqn:Hln.
Qed.

(** X8.  The texts of the sections of read_markdown_sections are the lines
    of the file from its first header line on, cut before every header line
    and joined by line feeds: every such line is in exactly one section, in
    order, each section starts with its header line and holds no other, and
    the lines before the first header are in none. *)
Theorem sections_partition_the_lines (content : string)
    (secs : list (section_info * string)) :
  parse_sections content = Ret secs →
  ∃ parts : list (list string),
    secs.*2 = Py.join Py.NL <$> parts ∧
    concat parts = from_first_header (Py.splitlines content) ∧
    Forall headed parts.
Proof.
  unfold parse_sections.
  destruct (scan_lines _ _ _) as [st|e] eqn:Hscan; [|done]. intros [= <-].
  pose proof (scan_lines_before_first_header _ _ _ _ Hscan eq_refl eq_refl) as Htexts.
  pose proof (from_first_header_headed (Py.splitlines content)) as Hfirst.
  destruct (from_first_header (Py.splitlines content)) as [|h rest].
  - exists []. by repeat split.
  - exists (pieces [h] rest). split; [done|]. split; [apply pieces_concat|].
    apply pieces_headed. exists h, []. by repeat split.
Qed.

Lemma sections_partition_the_lines_witness :
  ∃ parts : list (list string),
    [(Section_info "A" 1 2, Sample.text ["# A"; "body"])].*2 = Py.join Py.NL <$> parts ∧
    concat parts = from_first_header (Py.splitlines (Sample.text ["intro"; "# A"; "body"])) ∧
    Forall headed parts.
Proof.
  apply (sections_partition_the_lines (Sample.text ["intro"; "# A"; "body"])). reflexivity.
Defined.

(** ** The matches of a search *)

Section SearchOrder.
Context (lines : list string) (search_term : string) (context_lines : Z).

Let hit (ln : string) : Prop := Py.contains (Py.lower ln) (Py.lower search_term) = true.

Let step (matches : list (Z * string)) (item : Z * string) : list (Z * string) :=
  let '(i, ln) := item in
  if Py.contains (Py.lower ln) (Py.lower search_term)
  then matches ++ [(i + 1, context_text lines context_lines i)]
  else matches.

Lemma search_fold_sorted (todo : list string) (k : Z) :
  Forall (λ n, k < n) (fold_left step (Py.enumerate k todo) []).*1 ∧
  StronglySorted Z.lt (fold_left step (Py.enumerate k todo) []).*1 ∧
  length (fold_left step (Py.enumerate k todo) []) = length (filter hit todo).
Proof.
  revert k. induction todo as [|ln todo IH]; intros k; simpl.
  - repeat split; constructor.
  - destruct (IH (k + 1)) as (Hgt & Hsorted & Hlen).
    assert (Forall (λ n, k < n) (fold_left step (Py.enumerate (k + 1) todo) []).*1) as Hgt'.
    { eapply Forall_impl; [exact Hgt|]. simpl. intros; lia. }
    rewrite filter_cons.
    destruct (decide (hit ln)) as [Hln|Hln]; unfold hit in Hln.
    + rewrite Hln.
      rewrite (search_fold_acc lines search_term context_lines). simpl.
      split; [constructor; [lia|exact Hgt']|]. split; [constructor; [exact Hsorted|exact Hgt]|].
      f_equal. exact Hlen.
    + apply not_true_is_false in Hln. rewrite Hln. done.
Qed.

End SearchOrder.

(** X9.  search_markdown_content reports its matches in the order of the
    lines, each line at most once: the line numbers of the matches increase
    strictly, and there are as many matches as lines in which the search
    term occurs, both in lower case. *)
Theorem matches_come_in_line_order (lines : list string) (search_term : string)
    (context_lines : Z) :
  StronglySorted Z.lt (search_matches lines search_term context_lines).*1 ∧
  length (search_matches lines search_term context_lines) =
  length (filter (λ ln, Py.contains (Py.lower ln) (Py.lower search_term) = true) lines).
Proof.
  destruct (search_fold_sorted lines search_term context_lines lines 0) as (_ & Hs & Hl).
  split; [exact Hs|exact Hl].
Qed.

(** ** Commands *)

(** X10.  check_command_exists starts no process unless it has a command
    name: a command that is empty or blank, and one whose first word is
    empty, get the answer ["No command provided"]; when shlex.split raises
    (an unclosed quotation) or yields no word, the answer is the error
    string.  In each case the machine is left as it was. *)
Theorem check_command_exists_without_a_name {W} (os : OS W) (command : string) (w : W) :
  (Py.strip command = EmptyString →
   check_command_exists os command w = (Ret "No command provided", w)) ∧
  (Py.strip command ≠ EmptyString →
   (∀ e, shlex_split os command = Raise e → is_Exception e = true →
         check_command_exists os command w
           = (Ret ("Error checking command: " +:+ exn_str e), w)) ∧
   (shlex_split os command = Ret [] →
    check_command_exists os command w
      = (Ret "Error checking command: list index out of range", w)) ∧
   (∀ rest, shlex_split os command = Ret (EmptyString :: rest) →
            check_command_exists os command w = (Ret "No command provided", w))).
Proof.
  unfold check_command_exists. rewrite try_except_blanket.
  unfold check_command_exists_try. split.
  - intros Hblank. unfold bind at 1. unfold truthy at 1. rewrite Hblank. reflexivity.
  - intros Hname. apply truthy_spec in Hname.
    unfold bind at 1. rewrite Hname. repeat split.
    + intros e He Hexc. unfold bind at 1, lift. rewrite He. simpl. by rewrite Hexc.
    + intros He. unfold bind at 1, lift. by rewrite He.
    + intros rest He. unfold bind at 1, lift. by rewrite He.
Qed.

Lemma check_command_exists_without_a_name_witness :
  check_command_exists ref_os "   " Sample.machine
    = (Ret "No command provided", Sample.machine) ∧
  check_command_exists ref_os "echo 'hi" Sample.machine
    = (Ret "Error checking command: No closing quotation", Sample.machine).
Proof.
  split.
  - apply (check_command_exists_without_a_name ref_os "   " Sample.machine). reflexivity.
  - destruct (check_command_exists_without_a_name ref_os "echo 'hi" Sample.machine)
      as [_ H]. destruct H as (H & _); [done|].
    apply (H (Exn OtherException "No closing quotation")); reflexivity.
Defined.

(** X11.  A child that ends is reported whatever its return code: both
    command tools return its output, its error output under ["STDERR:"] and
    the line ["Exit code: <n>"], or a note that there was no output;
    execute_command_with_cwd returns the same text as execute_command, after
    a line that names the directory. *)
Theorem completed_command_is_reported {W} (os : OS W) (command : string) (r : completed) :
  (∀ w p w1 w2,
     popen os command None w = (Ret p, w1) →
     communicate os p None (Some 30) w1 = (Ret r, w2) →
     execute_command os command w = (Ret (report r), w2)) ∧
  (∀ working_dir w p w1 w2,
     path_exists os working_dir w = true →
     path_isdir os working_dir w = true →
     popen os command (Some working_dir) w = (Ret p, w1) →
     communicate os p None (Some 30) w1 = (Ret r, w2) →
     execute_command_with_cwd os command working_dir w =
       (Ret ("Command executed in directory: " +:+ working_dir +:+ Py.NL +:+ Py.NL
             +:+ report r), w2)).
Proof.
  assert (Hrun : ∀ cwd w p w1 w2,
    popen os command cwd w = (Ret p, w1) →
    communicate os p None (Some 30) w1 = (Ret r, w2) →
    subprocess_run os command cwd (Some 30) w = (Ret r, w2)).
  { intros cwd w p w1 w2 Hp Hc. unfold subprocess_run.
    rewrite (bind_ret_l _ _ _ _ _ Hp). unfold try_except. by rewrite Hc. }
  split.
  - intros w p w1 w2 Hp Hc.
    unfold execute_command. rewrite try_except_timeout.
    unfold execute_command_try. rewrite (bind_ret_l _ _ _ _ _ (Hrun _ _ _ _ _ Hp Hc)).
    unfold ret, report.
    destruct (stdout r) as [|a out], (stderr r) as [|b err]; simpl;
      rewrite ?string_app_nil_r; reflexivity.
  - intros d w p w1 w2 Hex Hdir Hp Hc.
    unfold execute_command_with_cwd. rewrite try_except_timeout.
    unfold execute_command_with_cwd_try, bind at 1, observe. rewrite Hex. simpl.
    unfold bind at 1. rewrite Hdir. simpl.
    rewrite (bind_ret_l _ _ _ _ _ (Hrun _ _ _ _ _ Hp Hc)).
    unfold ret, report.
    destruct (stdout r) as [|a out], (stderr r) as [|b err]; simpl;
      rewrite ?string_app_nil_r, ?string_app_assoc; reflexivity.
Qed.

Lemma completed_command_is_reported_witness :
  (∃ w', execute_command ref_os "frobnicate" Sample.machine =
     (Ret (Py.NL +:+ "STDERR:" +:+ Py.NL +:+ "/bin/sh: 1: frobnicate: not found" +:+ Py.NL
           +:+ Py.NL +:+ Py.NL +:+ "Exit code: 127"), w')) ∧
  (∃ w', execute_command_with_cwd ref_os "frobnicate" "docs" Sample.machine =
     (Ret ("Command executed in directory: docs" +:+ Py.NL +:+ Py.NL
           +:+ Py.NL +:+ "STDERR:" +:+ Py.NL +:+ "/bin/sh: 1: frobnicate: not found" +:+ Py.NL
           +:+ Py.NL +:+ Py.NL +:+ "Exit code: 127"), w')).
Proof.
  destruct (completed_command_is_reported ref_os "frobnicate"
              (Completed "" ("/bin/sh: 1: frobnicate: not found" +:+ Py.NL) 127))
    as [H1 H2].
  split; eexists.
  - eapply H1; vm_compute; reflexivity.
  - eapply H2; vm_compute; reflexivity.
Defined.

(** ** Writing files *)

Lemma dirname_of_bare_name (p : string) : Ref.has_slash p = false → Py.dirname p = EmptyString.
Proof.
  intros Hp. unfold Py.dirname.
  assert (Py.upto_last_slash p = EmptyString) as ->; [|done].
  induction p as [|c p IH]; [done|]. simpl in *.
  apply orb_false_iff in Hp as [Hc Hp]. rewrite (IH Hp). by rewrite Hc.
Qed.

(** X12.  write_file given a file name without a directory part asks
    os.makedirs for the directory with the empty name.  When that call
    raises, as it does on the reference machine as in CPython, write_file
    returns the error string and writes nothing. *)
Theorem bare_file_name_is_not_written (p content : string) :
  Ref.has_slash p = false →
  (∀ W (os : OS W) (w w' : W) (e : exn),
     makedirs os EmptyString w = (Raise e, w') → is_Exception e = true →
     write_file os p content w = (Ret ("Error writing file: " +:+ exn_str e), w')) ∧
  (∀ w : Ref.world,
     write_file ref_os p content w =
       (Ret "Error writing file: [Errno 2] No such file or directory: ''", w)).
Proof.
  intros Hp. pose proof (dirname_of_bare_name p Hp) as Hdir.
  assert (Hgen : ∀ W (os : OS W) (w w' : W) (e : exn),
    makedirs os EmptyString w = (Raise e, w') → is_Exception e = true →
    write_file os p content w = (Ret ("Error writing file: " +:+ exn_str e), w')).
  { intros W os w w' e Hmk He. unfold write_file. rewrite try_except_blanket.
    unfold write_file_try. rewrite Hdir, (bind_raise _ _ _ _ _ Hmk). by rewrite He. }
  split; [exact Hgen|].
  intros w. by apply (Hgen _ ref_os w w (Ref.no_such_file EmptyString)).
Qed.

Lemma bare_file_name_is_not_written_witness :
  write_file ref_os "notes.txt" "remember" Sample.machine =
    (Ret "Error writing file: [Errno 2] No such file or directory: ''", Sample.machine).
Proof.
  destruct (bare_file_name_is_not_written "notes.txt" "remember") as [_ H]; [reflexivity|].
  apply H.
Defined.

(** X13.  On the reference machine, when write_file reports success,
    read_file on the same path returns the text that was written, with LF in
    place of every CR and CR LF: the text itself when it holds no CR. *)
Theorem written_text_is_read_back (w w' : Ref.world) (p content : string) :
  write_file ref_os p content w = (Ret ("Successfully wrote to " +:+ p), w') →
  read_file ref_os p w' = (Ret (Ref.universal_newlines content), w') ∧
  (no_CR content = true → read_file ref_os p w' = (Ret content, w')).
Proof.
  intros Hwrite.
  assert (Ref.files w' !! p = Some (Ref.File content true)) as Hfile.
  { revert Hwrite. unfold write_file. rewrite try_except_blanket.
    unfold write_file_try, bind at 1. simpl.
    destruct (Ref.makedirs (Py.dirname p) w) as [[[]|e] w1] eqn:Hmk.
    2:{ destruct (is_Exception e); intros Heq; [|done].
        injection Heq as Heq _. discriminate Heq. }
    unfold bind at 1, Ref.write_text.
    destruct (Ref.files w1 !! p) as [[|data [|]|bytes complaint]|] eqn:Hp; simpl.
    - intros Heq. injection Heq as Heq _. discriminate Heq.
    - intros [= <-]. simpl. by rewrite lookup_insert_eq.
    - intros Heq. injection Heq as Heq _. discriminate Heq.
    - intros [= <-]. simpl. by rewrite lookup_insert_eq.
    - destruct (Ref.parent_ok p w1); simpl.
      + intros [= <-]. simpl. by rewrite lookup_insert_eq.
      + intros Heq. injection Heq as Heq _. discriminate Heq. }
  assert (read_file ref_os p w' = (Ret (Ref.universal_newlines content), w')) as Hread.
  { unfold read_file. rewrite try_except_blanket. unfold read_file_try. simpl.
    unfold Ref.read_text. by rewrite Hfile. }
  split; [done|]. intros Hcr. by rewrite Hread, universal_newlines_id.
Qed.

Lemma written_text_is_read_back_witness :
  ∃ w', write_file ref_os "docs/new.txt" "hello" Sample.machine
          = (Ret "Successfully wrote to docs/new.txt", w') ∧
        read_file ref_os "docs/new.txt" w' = (Ret "hello", w').
Proof.
  eexists. split; [vm_compute; reflexivity|].
  eapply (written_text_is_read_back Sample.machine _ "docs/new.txt" "hello").
  - vm_compute. reflexivity.
  - reflexivity.
Defined.

(** ** read_markdown_file *)

Lemma rev_app_acc (s acc : string) : String.rev_app s acc = String.rev_app s EmptyString +:+ acc.
Proof.
  revert acc. induction s as [|c s IH]; intros acc; simpl; [done|].
  rewrite (IH (String c acc)), (IH (String c EmptyString)).
  by rewrite string_app_assoc.
Qed.

Lemma rev_app_distr (a b : string) : String.rev (a +:+ b) = String.rev b +:+ String.rev a.
Proof.
  unfold String.rev. induction a as [|c a IH].
  - by rewrite string_app_nil_r.
  - rewrite app_cons. simpl. rewrite (rev_app_acc (a +:+ b)), IH.
    rewrite (rev_app_acc a (String c EmptyString)). by rewrite string_app_assoc.
Qed.

Lemma rev_involutive (s : string) : String.rev (String.rev s) = s.
Proof.
  induction s as [|c s IH]; [done|].
  change (String c s) with (String c EmptyString +:+ s) at 1.
  rewrite rev_app_distr, rev_app_distr, IH. done.
Qed.

Lemma endswith_spec (s suffix : string) :
  Py.endswith s suffix = true ↔ ∃ stem, s = stem +:+ suffix.
Proof.
  unfold Py.endswith. rewrite startswith_spec. split.
  - intros [after H]. exists (String.rev after).
    rewrite <- (rev_involutive s), H, rev_app_distr. by rewrite rev_involutive.
  - intros [stem ->]. exists (String.rev stem). apply rev_app_distr.
Qed.

(** X14.  read_markdown_file tests first that the path exists and then that
    its name, in lower case, ends in [.md]; when either test fails it returns
    its message and reads nothing.  Otherwise it returns the text of the
    file after three lines that give the path, the number of lines and the
    number of characters. *)
Theorem read_markdown_file_tests_the_name {W} (os : OS W) (file_path : string) (w : W) :
  (path_exists os file_path w = false →
   read_markdown_file os file_path w = (Ret (missing_file file_path), w)) ∧
  (path_exists os file_path w = true →
   (∀ stem, Py.lower file_path ≠ stem +:+ ".md") →
   read_markdown_file os file_path w =
     (Ret ("Warning: File " +:+ Py.quoted file_path +:+ " is not a markdown file (.md)"),
      w)) ∧
  (path_exists os file_path w = true →
   ∀ stem content w',
     Py.lower file_path = stem +:+ ".md" →
     read_text os file_path w = (Ret content, w') →
     read_markdown_file os file_path w =
       (Ret ("=== File: " +:+ file_path +:+ " ===" +:+ Py.NL
             +:+ "Total lines: " +:+ Py.str (Z.of_nat (length (Py.splitlines content)))
             +:+ Py.NL
             +:+ "File size: " +:+ Py.str (Py.len content) +:+ " characters"
             +:+ Py.NL +:+ Py.NL +:+ content), w')).
Proof.
  unfold read_markdown_file. rewrite try_except_blanket.
  unfold read_markdown_file_try.
  split; [|split].
  - intros Hex. unfold bind at 1, observe. rewrite Hex. reflexivity.
  - intros Hex Hname. unfold bind at 1, observe. rewrite Hex. simpl.
    assert (Py.endswith (Py.lower file_path) ".md" = false) as ->; [|done].
    apply not_true_is_false. rewrite endswith_spec. intros [stem Hs]. by apply (Hname stem).
  - intros Hex stem content w' Hname Hread. unfold bind at 1, observe. rewrite Hex. simpl.
    assert (Py.endswith (Py.lower file_path) ".md" = true) as ->.
    { apply endswith_spec. by exists stem. }
    simpl. unfold bind at 1. rewrite Hread. unfold ret.
    rewrite !string_app_assoc. reflexivity.
Qed.

Lemma read_markdown_file_tests_the_name_witness :
  read_markdown_file ref_os "docs/none.md" Sample.machine
    = (Ret "Error: File 'docs/none.md' does not exist", Sample.machine) ∧
  read_markdown_file ref_os "docs/mac.txt" Sample.machine
    = (Ret "Warning: File 'docs/mac.txt' is not a markdown file (.md)", Sample.machine) ∧
  read_markdown_file ref_os "docs/intro.md" Sample.machine
    = (Ret ("=== File: docs/intro.md ===" +:+ Py.NL +:+ "Total lines: 3" +:+ Py.NL
            +:+ "File size: 14 characters" +:+ Py.NL +:+ Py.NL
            +:+ Sample.text ["intro"; "# A"; "body"]), Sample.machine).
Proof.
  split; [|split].
  - apply (read_markdown_file_tests_the_name ref_os "docs/none.md" Sample.machine).
    reflexivity.
  - apply (read_markdown_file_tests_the_name ref_os "docs/mac.txt" Sample.machine);
      [reflexivity|].
    intros stem Hs. assert (Py.endswith (Py.lower "docs/mac.txt") ".md" = true) as Hend.
    { apply endswith_spec. by exists stem. }
    vm_compute in Hend. discriminate Hend.
  - destruct (read_markdown_file_tests_the_name ref_os "docs/intro.md" Sample.machine)
      as (_ & _ & H).
    apply (H eq_refl "docs/intro" (Sample.text ["intro"; "# A"; "body"]) Sample.machine);
      reflexivity.
Defined.

(** ** Environment variables *)

(** X15.  On the reference machine, set_environment_variable with a name
    that is not empty and holds neither [=] nor a NUL, and a value that
    holds no NUL, reports success, after which get_environment_variable
    returns [name=value] for that name and what it returned before for
    every other name.  With a NUL in the name or in the value it returns
    the error string of the ValueError and changes nothing. *)
Theorem variable_set_is_variable_got (w : Ref.world) (var_name value : string) :
  (Ref.has_NUL var_name = false → Ref.has_NUL value = false →
   var_name ≠ EmptyString → Py.contains var_name "=" = false →
   ∃ w',
     set_environment_variable ref_os var_name value w
       = (Ret ("Successfully set " +:+ var_name +:+ "=" +:+ value), w') ∧
     get_environment_variable ref_os var_name w'
       = (Ret (var_name +:+ "=" +:+ value), w') ∧
     ∀ other, other ≠ var_name →
       (get_environment_variable ref_os other w').1
         = (get_environment_variable ref_os other w).1) ∧
  (Ref.has_NUL var_name || Ref.has_NUL value = true →
   set_environment_variable ref_os var_name value w
     = (Ret "Error setting environment variable: embedded null byte", w)).
Proof.
  split.
  - intros Hnul Hnul' Hname Heq.
    unfold set_environment_variable. rewrite try_except_blanket.
    unfold set_environment_variable_try, bind at 1. simpl. unfold Ref.environ_set.
    rewrite Hnul, Hnul', Heq, bool_decide_false by done. simpl.
    eexists. split; [reflexivity|].
    assert (Hget : ∀ v u, (get_environment_variable ref_os v u).1 =
              Ret match Ref.environ u !! v with
                  | Some x => v +:+ "=" +:+ x
                  | None => "Environment variable " +:+ Py.quoted v +:+ " is not set"
                  end).
    { intros v u. unfold get_environment_variable. rewrite try_except_blanket.
      unfold get_environment_variable_try, bind, observe. simpl.
      unfold Ref.environ_get. by destruct (Ref.environ u !! v). }
    split.
    + unfold get_environment_variable. rewrite try_except_blanket.
      unfold get_environment_variable_try, bind, observe. simpl.
      unfold Ref.environ_get. simpl. by rewrite lookup_insert_eq.
    + intros other Hother. rewrite !Hget. simpl. by rewrite lookup_insert_ne.
  - intros Hnul.
    unfold set_environment_variable. rewrite try_except_blanket.
    unfold set_environment_variable_try, bind at 1. simpl. unfold Ref.environ_set.
    by rewrite Hnul.
Qed.

Lemma variable_set_is_variable_got_witness :
  (∃ w',
     set_environment_variable ref_os "TEST_VAR" "test_value" Sample.machine
       = (Ret "Successfully set TEST_VAR=test_value", w') ∧
     get_environment_variable ref_os "TEST_VAR" w'
       = (Ret "TEST_VAR=test_value", w') ∧
     ∀ other, other ≠ "TEST_VAR" →
       (get_environment_variable ref_os other w').1
         = (get_environment_variable ref_os other Sample.machine).1) ∧
  set_environment_variable ref_os "TEST_VAR" (String (ascii_of_nat 0) "") Sample.machine
    = (Ret "Error setting environment variable: embedded null byte", Sample.machine).
Proof.
  split.
  - apply (variable_set_is_variable_got Sample.machine "TEST_VAR" "test_value");
      [reflexivity|reflexivity|done|reflexivity].
  - apply (variable_set_is_variable_got Sample.machine "TEST_VAR" (String (ascii_of_nat 0) "")).
    reflexivity.
Defined.

(** ** Line numbers and empty files *)




(** X17.  On a file that is empty, read_markdown_lines refuses every start
    line, read_markdown_pages refuses every page for a page size of at least
    1, read_markdown_sections lists no section and finds none, and
    search_markdown_content finds no match. *)
Theorem empty_file {W} (os : OS W) (file_path : string) (w w' : W) :
  path_exists os file_path w = true →
  read_text os file_path w = (Ret EmptyString, w') →
  (∀ start_line end_line,
     read_markdown_lines os file_path start_line end_line w =
       (Ret ("Error: Start line " +:+ Py.str start_line
             +:+ " is beyond file length (0 lines)"), w')) ∧
  (∀ page_num lines_per_page, 1 ≤ lines_per_page →
     read_markdown_pages os file_path (Some page_num) lines_per_page w =
       (Ret ("Error: Page " +:+ Py.str page_num
             +:+ " is out of range. File has 0 pages."), w')) ∧
  read_markdown_sections os file_path None w =
    (Ret ("=== Sections in " +:+ file_path +:+ " ===" +:+ Py.NL +:+ Py.NL), w') ∧
  (∀ section_name,
     read_markdown_sections os file_path (Some section_name) w =
       (Ret ("Error: Section " +:+ Py.quoted section_name +:+ " not found in file"), w')) ∧
  (∀ search_term context_lines,
     search_markdown_content os file_path search_term context_lines w =
       (Ret ("No matches found for " +:+ Py.quoted search_term +:+ " in " +:+ file_path),
        w')).
Proof.
  intros Hex Hread.
  split; [|split; [|split; [|split]]].
  - intros start_line end_line.
    unfold read_markdown_lines. rewrite try_except_blanket.
    unfold read_markdown_lines_try, read_lines, bind at 1, observe. rewrite Hex. simpl.
    unfold bind at 1. unfold bind at 1. rewrite Hread. simpl.
    rewrite (proj2 (Z.leb_le 0 _)) by (unfold start_index; lia). reflexivity.
  - intros page_num lines_per_page HL.
    unfold read_markdown_pages. rewrite try_except_blanket.
    unfold read_markdown_pages_try, read_lines, bind at 1, observe. rewrite Hex. simpl.
    unfold bind at 1. unfold bind at 1. rewrite Hread. simpl.
    unfold total_pages, floordiv. rewrite bool_decide_false by lia.
    rewrite bind_lift_ret. rewrite Z.div_small by lia.
    destruct (Z.ltb_spec page_num 1); [done|].
    rewrite (proj2 (Z.ltb_lt 0 page_num)) by lia. reflexivity.
  - unfold read_markdown_sections. rewrite try_except_blanket.
    unfold read_markdown_sections_try, bind at 1, observe. rewrite Hex. simpl.
    unfold bind at 1. rewrite Hread. reflexivity.
  - intros section_name.
    unfold read_markdown_sections. rewrite try_except_blanket.
    unfold read_markdown_sections_try, bind at 1, observe. rewrite Hex. simpl.
    unfold bind at 1. rewrite Hread. reflexivity.
  - intros search_term context_lines.
    unfold search_markdown_content. rewrite try_except_blanket.
    unfold search_markdown_content_try, read_lines, bind at 1, observe. rewrite Hex. simpl.
    unfold bind at 1. unfold bind at 1. rewrite Hread. reflexivity.
Qed.

Lemma empty_file_witness :
  (∀ start_line end_line,
     read_markdown_lines ref_os "docs/empty.md" start_line end_line machine_with_empty_file =
       (Ret ("Error: Start line " +:+ Py.str start_line
             +:+ " is beyond file length (0 lines)"), machine_with_empty_file)) ∧
  (∀ page_num lines_per_page, 1 ≤ lines_per_page →
     read_markdown_pages ref_os "docs/empty.md" (Some page_num) lines_per_page
       machine_with_empty_file =
       (Ret ("Error: Page " +:+ Py.str page_num
             +:+ " is out of range. File has 0 pages."), machine_with_empty_file)) ∧
  read_markdown_sections ref_os "docs/empty.md" None machine_with_empty_file =
    (Ret ("=== Sections in " +:+ "docs/empty.md" +:+ " ===" +:+ Py.NL +:+ Py.NL),
     machine_with_empty_file) ∧
  (∀ section_name,
     read_markdown_sections ref_os "docs/empty.md" (Some section_name)
       machine_with_empty_file =
       (Ret ("Error: Section " +:+ Py.quoted section_name +:+ " not found in file"),
        machine_with_empty_file)) ∧
  (∀ search_term context_lines,
     search_markdown_content ref_os "docs/empty.md" search_term context_lines
       machine_with_empty_file =
       (Ret ("No matches found for " +:+ Py.quoted search_term +:+ " in "
             +:+ "docs/empty.md"), machine_with_empty_file)).
Proof.
  apply (empty_file ref_os "docs/empty.md" machine_with_empty_file machine_with_empty_file);
    reflexivity.
Defined.
